(** * Checkers-Framework: the rules engine of [checkers.py]

    A shallow embedding of the three classes of [checkers.py] ([Checker],
    [CheckerBoard], [CheckerEngine]) and the properties of its
    specification.

    Python integers are unbounded, so they are [Z]; [>>], [<<], [&] and [|]
    are [Z.shiftr], [Z.shiftl], [Z.land] and [Z.lor], which agree with
    Python on negative numbers as well (arithmetic shift, infinite two's
    complement).  [%] with a positive modulus is [Z.modulo].

    [Checker] objects are mutable and shared: the board's list holds
    references to them and [movement_check] writes to the piece it is
    handed, which usually is one of the board's.  Objects therefore live in
    a heap and are named by references; the board's collection is a list of
    references, and removal is by identity. *)

From Stdlib Require Import String ZArith List Bool Lia.
Import ListNotations.
Local Open Scope Z_scope.

(** ** The class [Checker] *)

Module Checker.

(** An instance has the single attribute [data], laid out [KCXXXXYYYY]. *)
Record t : Set := mk { data : Z }.

(** [Checker.__init__(self, king, is_red, x_pos, y_pos)].  The two flags
    are Python booleans, which [<<] treats as 0 and 1. *)
Definition init (king is_red : bool) (x_pos y_pos : Z) : t :=
  let x_pos := if x_pos >? 15 then 15 else x_pos in
  let x_pos := if x_pos <? 0 then 0 else x_pos in
  let y_pos := if y_pos >? 15 then 15 else y_pos in
  let y_pos := if y_pos <? 0 then 0 else y_pos in
  mk (Z.lor (Z.lor (Z.lor (Z.shiftl (Z.b2z king) 9)
                          (Z.shiftl (Z.b2z is_red) 8))
                   (Z.shiftl x_pos 4))
            y_pos).

Definition is_king (self : t) : bool :=
  if Z.shiftr (Z.land (data self) 512) 9 =? 1 then true else false.

Definition get_color (self : t) : string :=
  if Z.shiftr (Z.land (data self) 256) 8 =? 1 then "Red"%string else "Black"%string.

Definition get_x_pos (self : t) : Z :=
  Z.shiftr (Z.land (data self) 240) 4.

Definition get_y_pos (self : t) : Z :=
  Z.land (data self) 15.

End Checker.

(** ** Object store *)

(** A reference names one [Checker] object; two references are the same
    object exactly when they are equal. *)
Definition ref : Set := nat.

Module Heap.

(** [obj] gives the current contents of every object, [next] is the first
    reference never handed out. *)
Record t : Set := mk { obj : ref -> Checker.t; next : ref }.

Definition empty : t := mk (fun _ => Checker.mk 0) O.

(** Evaluating a constructor call: a fresh object. *)
Definition new (h : t) (c : Checker.t) : t * ref :=
  (mk (fun r => if Nat.eqb r (next h) then c else obj h r) (S (next h)),
   next h).

(** [piece.data = d]. *)
Definition set_data (h : t) (piece : ref) (d : Z) : t :=
  mk (fun r => if Nat.eqb r piece then Checker.mk d else obj h r) (next h).

End Heap.

(** Accessors through a reference. *)
Definition data_of (h : Heap.t) (p : ref) : Z := Checker.data (Heap.obj h p).
Definition is_king (h : Heap.t) (p : ref) : bool := Checker.is_king (Heap.obj h p).
Definition get_color (h : Heap.t) (p : ref) : string := Checker.get_color (Heap.obj h p).
Definition get_x_pos (h : Heap.t) (p : ref) : Z := Checker.get_x_pos (Heap.obj h p).
Definition get_y_pos (h : Heap.t) (p : ref) : Z := Checker.get_y_pos (Heap.obj h p).

(** ** The class [CheckerBoard] *)

(** [list.remove(x)]: drops the first occurrence of [x]; [None] stands for
    the [ValueError] raised when there is none.  [Checker] defines no
    [__eq__], so the comparison is identity. *)
Fixpoint list_remove (x : ref) (l : list ref) : option (list ref) :=
  match l with
  | [] => None
  | y :: l' =>
      if Nat.eqb y x then Some l'
      else match list_remove x l' with
           | Some r => Some (y :: r)
           | None => None
           end
  end.

(** [range(n)]. *)
Definition range (n : Z) : list Z := map Z.of_nat (seq 0 (Z.to_nat n)).

Module CheckerBoard.

Record t : Set := mk { width : Z; height : Z; pieces : list ref }.

Definition add_piece (self : t) (piece : ref) : t :=
  mk (width self) (height self) (pieces self ++ [piece]).

Definition remove_piece (self : t) (piece : ref) : option t :=
  match list_remove piece (pieces self) with
  | Some l => Some (mk (width self) (height self) l)
  | None => None
  end.

Definition red_check (row column : Z) : bool :=
  if (row + column) mod 2 =? 0 then false else true.

Definition get_number_of_pieces (self : t) : Z :=
  Z.of_nat (length (pieces self)).

(** [self.add_piece(Checker(king, is_red, x_pos, y_pos))]. *)
Definition add_new (king is_red : bool) (x_pos y_pos : Z)
           (st : Heap.t * t) : Heap.t * t :=
  let (h', p) := Heap.new (fst st) (Checker.init king is_red x_pos y_pos) in
  (h', add_piece (snd st) p).

(** The body of [for column in range(self.width)]. *)
Definition generate_cell (current_row column : Z)
           (st : Heap.t * t) : Heap.t * t :=
  let st :=
    if negb (red_check current_row column)
    then add_new false false column current_row st
    else st in
  let bottom := height (snd st) - current_row - 1 in
  if negb (red_check bottom column)
  then add_new false true column bottom st
  else st.

(** [while current_row < rows_to_generate], with [n] the number of
    iterations left: [current_row] goes up by one each time round, so
    that is [rows_to_generate - current_row]. *)
Fixpoint generate_rows (n : nat) (current_row : Z)
         (st : Heap.t * t) : Heap.t * t :=
  match n with
  | O => st
  | S n' =>
      let st :=
        fold_left (fun st column => generate_cell current_row column st)
                  (range (width (snd st))) st in
      generate_rows n' (current_row + 1) st
  end.

(** [floor(a / 2)] on integers is [a / 2] rounded down, which is [Z.div]. *)
Definition rows_to_generate (self : t) : Z :=
  if height self mod 2 =? 0
  then (height self - 1) / 2
  else height self / 2.

Definition generate_board (st : Heap.t * t) : Heap.t * t :=
  generate_rows (Z.to_nat (rows_to_generate (snd st) - 0)) 0 st.

(** [CheckerBoard.__init__(self, width, height)]. *)
Definition init (h : Heap.t) (width height : Z) : Heap.t * t :=
  let width := if width >? 16 then 16 else width in
  let width := if width <? 3 then 3 else width in
  let height := if height >? 16 then 16 else height in
  let height := if height <? 3 then 3 else height in
  generate_board (h, mk width height []).

End CheckerBoard.

(** ** The class [CheckerEngine] *)

(** How the scan for a jumped piece ends: with the [return] inside the
    loop, or by running off the end of the list.  Either way it carries the
    value [jumped_piece] has at that point. *)
Inductive scan : Set :=
| Returned (jumped_piece : option ref)
| Finished (jumped_piece : option ref).

Module CheckerEngine.

Record t : Set := mk { board : CheckerBoard.t; turn : Z }.

Definition create_game (h : Heap.t) (width height : Z)
  : Heap.t * CheckerBoard.t :=
  CheckerBoard.init h width height.

Definition init (h : Heap.t) (width height : Z) : Heap.t * t :=
  let (h', b) := create_game h width height in (h', mk b 0).

(** The two halves of the unpacked target, [move >> 4] and
    [move & 0b00001111]. *)
Definition move_x (move : Z) : Z := Z.shiftr move 4.
Definition move_y (move : Z) : Z := Z.land move 15.

(** The tests of [movement_check], in the order of the source. *)
Definition bad_parameter (move : Z) : bool :=
  (move <? 0) || (move >? 255).

Definition off_grid_x (self : t) (move : Z) : bool :=
  move_x move >=? CheckerBoard.width (board self).

Definition off_grid_y (self : t) (move : Z) : bool :=
  move_y move >=? CheckerBoard.height (board self).

Definition to_red_square (move : Z) : bool :=
  CheckerBoard.red_check (move_y move) (move_x move).

Definition not_diagonal (h : Heap.t) (moving_piece : ref) (move : Z) : bool :=
  (get_x_pos h moving_piece =? move_x move)
  || (get_y_pos h moving_piece =? move_y move).

Definition backwards_black (h : Heap.t) (moving_piece : ref) (move : Z) : bool :=
  (get_y_pos h moving_piece >=? move_y move)
  && Bool.eqb (is_king h moving_piece) false
  && (get_color h moving_piece =? "Black")%string.

Definition backwards_red (h : Heap.t) (moving_piece : ref) (move : Z) : bool :=
  (get_y_pos h moving_piece <=? move_y move)
  && Bool.eqb (is_king h moving_piece) false
  && (get_color h moving_piece =? "Red")%string.

(** The first [for piece in self.board.pieces]: it returns from inside
    the loop as soon as a piece sits on the target. *)
Definition occupied (h : Heap.t) (self : t) (move : Z) : bool :=
  existsb (fun piece => (get_x_pos h piece =? move_x move)
                        && (get_y_pos h piece =? move_y move))
          (CheckerBoard.pieces (board self)).

Definition attempts_jump (h : Heap.t) (moving_piece : ref) (move : Z) : bool :=
  (get_x_pos h moving_piece >? move_x move + 1)
  || (get_x_pos h moving_piece <? move_x move - 1).

Definition at_offset_plus (h : Heap.t) (piece : ref) (move : Z) : bool :=
  (get_x_pos h piece =? move_x move + 1)
  && (get_y_pos h piece =? move_y move + 1).

Definition at_offset_minus (h : Heap.t) (piece : ref) (move : Z) : bool :=
  (get_x_pos h piece =? move_x move - 1)
  && (get_y_pos h piece =? move_y move - 1).

Definition same_color (h : Heap.t) (piece moving_piece : ref) : bool :=
  (get_color h piece =? get_color h moving_piece)%string.

(** One of the two [if]s of the loop body. *)
Definition look (here : bool) (h : Heap.t) (piece moving_piece : ref)
           (jumped_piece : option ref) : scan :=
  if here
  then if same_color h piece moving_piece
       then Returned jumped_piece
       else Finished (Some piece)
  else Finished jumped_piece.

(** The second [for piece in self.board.pieces]. *)
Fixpoint find_jumped (h : Heap.t) (moving_piece : ref) (move : Z)
         (l : list ref) (jumped_piece : option ref) : scan :=
  match l with
  | [] => Finished jumped_piece
  | piece :: l' =>
      match look (at_offset_plus h piece move) h piece moving_piece
                 jumped_piece with
      | Returned j => Returned j
      | Finished j1 =>
          match look (at_offset_minus h piece move) h piece moving_piece
                     j1 with
          | Returned j => Returned j
          | Finished j2 => find_jumped h moving_piece move l' j2
          end
      end
  end.

(** The king logic that ends [movement_check]. *)
Definition promote (h : Heap.t) (self : t) (moving_piece : ref) (move : Z)
  : Heap.t :=
  let crown :=
    Heap.set_data h moving_piece (Z.lor (data_of h moving_piece) 512) in
  if (get_color h moving_piece =? "Red")%string
  then if move_y move =? 0 then crown else h
  else if move_y move =? CheckerBoard.height (board self) - 1
       then crown else h.

(** [movement_check(self, moving_piece, move)]: the heap it leaves and
    the tuple [(L, J, P)] it returns.  What it prints under [VERBOSE] is
    left out. *)
Definition movement_check (h : Heap.t) (self : t) (moving_piece : ref)
           (move : Z) : Heap.t * (bool * bool * option ref) :=
  let move_is_jump := false in
  let jumped_piece : option ref := None in
  if bad_parameter move then (h, (false, move_is_jump, jumped_piece))
  else if off_grid_x self move then (h, (false, move_is_jump, jumped_piece))
  else if off_grid_y self move then (h, (false, move_is_jump, jumped_piece))
  else if to_red_square move then (h, (false, move_is_jump, jumped_piece))
  else if not_diagonal h moving_piece move
  then (h, (false, move_is_jump, jumped_piece))
  else if backwards_black h moving_piece move
  then (h, (false, move_is_jump, jumped_piece))
  else if backwards_red h moving_piece move
  then (h, (false, move_is_jump, jumped_piece))
  else if occupied h self move then (h, (false, move_is_jump, jumped_piece))
  else
    let move_is_jump :=
      if attempts_jump h moving_piece move then true else move_is_jump in
    let after_jump :=
      if move_is_jump then
        if backwards_black h moving_piece move then Returned jumped_piece
        else if backwards_red h moving_piece move then Returned jumped_piece
        else find_jumped h moving_piece move
                         (CheckerBoard.pieces (board self)) jumped_piece
      else Finished jumped_piece in
    match after_jump with
    | Returned jumped_piece => (h, (false, move_is_jump, jumped_piece))
    | Finished jumped_piece =>
        (promote h self moving_piece move,
         (true, move_is_jump, jumped_piece))
    end.

(** What [move] reports: the three values its result string is formatted
    from. *)
Record report : Set :=
  mk_report { was_legal : bool; was_jump : bool; jumped : option ref }.

(** [move(self, moving_piece, move)].  [None] is the [ValueError] of
    [list.remove]. *)
Definition move (h : Heap.t) (self : t) (moving_piece : ref) (move : Z)
  : option (Heap.t * t * report) :=
  let '(h, (was_legal, was_jump, jumped_piece)) :=
    movement_check h self moving_piece move in
  let h :=
    if was_legal then
      let temp_data := Z.shiftr (data_of h moving_piece) 8 in
      let final_data := Z.lor (Z.shiftl temp_data 8) move in
      Heap.set_data h moving_piece final_data
    else h in
  let rep := mk_report was_legal was_jump jumped_piece in
  match jumped_piece with
  | Some p =>
      if was_jump then
        match list_remove p (CheckerBoard.pieces (board self)) with
        | Some l =>
            Some (h,
                  mk (CheckerBoard.mk (CheckerBoard.width (board self))
                                      (CheckerBoard.height (board self)) l)
                     (turn self),
                  rep)
        | None => None
        end
      else Some (h, self, rep)
  | None => Some (h, self, rep)
  end.

End CheckerEngine.

(** ** Vocabulary of the statements *)

(** The canonical bit layout of a piece: bit 9 the king flag, bit 8 the
    colour (1 for Red), bits 4 to 7 the column, bits 0 to 3 the row. *)
Definition encode (king : bool) (color : string) (column row : Z) : Z :=
  Z.lor (Z.lor (Z.lor (Z.shiftl (Z.b2z king) 9)
                      (Z.shiftl (Z.b2z (color =? "Red")%string) 8))
               (Z.shiftl column 4))
        row.

(** A code that fits the ten bits of the layout. *)
Definition ten_bit (d : Z) : Prop := 0 <= d < 1024.

(** Some test of [movement_check] that comes before the jump logic
    rejects the move. *)
Definition rejected_before_jump (h : Heap.t) (self : CheckerEngine.t)
           (moving_piece : ref) (move : Z) : bool :=
  CheckerEngine.bad_parameter move
  || CheckerEngine.off_grid_x self move
  || CheckerEngine.off_grid_y self move
  || CheckerEngine.to_red_square move
  || CheckerEngine.not_diagonal h moving_piece move
  || CheckerEngine.backwards_black h moving_piece move
  || CheckerEngine.backwards_red h moving_piece move
  || CheckerEngine.occupied h self move.

(** The three components of the tuple [movement_check] returns. *)
Definition legal (r : Heap.t * (bool * bool * option ref)) : bool :=
  fst (fst (snd r)).
Definition is_jump (r : Heap.t * (bool * bool * option ref)) : bool :=
  snd (fst (snd r)).
Definition jumped_piece (r : Heap.t * (bool * bool * option ref)) : option ref :=
  snd (snd r).

(** A piece of the mover's colour sits at one of the two offsets the jump
    logic looks at. *)
Definition blocks (h : Heap.t) (moving_piece : ref) (move : Z) (piece : ref)
  : bool :=
  (CheckerEngine.at_offset_plus h piece move
   || CheckerEngine.at_offset_minus h piece move)
  && CheckerEngine.same_color h piece moving_piece.

(** Any piece at all sits at one of the two offsets. *)
Definition beside (h : Heap.t) (move : Z) (piece : ref) : bool :=
  CheckerEngine.at_offset_plus h piece move
  || CheckerEngine.at_offset_minus h piece move.

(** The mover reaches its far row: row 0 for Red, the last row of the
    board for Black. *)
Definition reaches_far_row (h : Heap.t) (self : CheckerEngine.t)
           (moving_piece : ref) (move : Z) : bool :=
  if (get_color h moving_piece =? "Red")%string
  then CheckerEngine.move_y move =? 0
  else CheckerEngine.move_y move
       =? CheckerBoard.height (CheckerEngine.board self) - 1.

(** The value of [jumped_piece] a scan ends with. *)
Definition held (s : scan) : option ref :=
  match s with Returned j => j | Finished j => j end.

(** The objects of the board's collection, in order. *)
Definition contents (st : Heap.t * CheckerBoard.t) : list Checker.t :=
  map (Heap.obj (fst st)) (CheckerBoard.pieces (snd st)).

Definition count_color (color : string) (l : list Checker.t) : nat :=
  List.length (filter (fun c => (Checker.get_color c =? color)%string) l).

(** What [generate_board] constructs, as a list: the pieces of one cell,
    one row pair, [n] row pairs. *)
Definition cell_layout (height current_row column : Z) : list Checker.t :=
  (if negb (CheckerBoard.red_check current_row column)
   then [Checker.init false false column current_row] else [])
  ++ (if negb (CheckerBoard.red_check (height - current_row - 1) column)
      then [Checker.init false true column (height - current_row - 1)]
      else []).

Definition row_layout (width height current_row : Z) : list Checker.t :=
  flat_map (cell_layout height current_row) (range width).

Fixpoint rows_layout (n : nat) (width height current_row : Z)
  : list Checker.t :=
  match n with
  | O => []
  | S n' => row_layout width height current_row
            ++ rows_layout n' width height (current_row + 1)
  end.

(** The collection holds the objects made since the heap stood at [base],
    each once, in the order they were made. *)
Definition sequential (base : ref) (st : Heap.t * CheckerBoard.t) : Prop :=
  CheckerBoard.pieces (snd st)
  = seq base (List.length (CheckerBoard.pieces (snd st)))
  /\ Heap.next (fst st)
     = (base + List.length (CheckerBoard.pieces (snd st)))%nat.

(** The dimensions [CheckerBoard.__init__] settles on. *)
Definition clamp_dimension (n : Z) : Z := Z.max 3 (Z.min 16 n).

(** Tests on one piece: it stands on a square with even [row + column];
    it stands outside rows 3 and 4. *)
Definition on_even_square (c : Checker.t) : bool :=
  (Checker.get_y_pos c + Checker.get_x_pos c) mod 2 =? 0.

Definition off_middle_rows (c : Checker.t) : bool :=
  negb (Checker.get_y_pos c =? 3) && negb (Checker.get_y_pos c =? 4).

(** Every object of the heap holds a ten-bit code. *)
Definition all_ten_bit (h : Heap.t) : Prop :=
  forall p, ten_bit (data_of h p).

(** A game: the heap and the engine that lives in it. *)
Definition game : Set := (Heap.t * CheckerEngine.t)%type.

(** [CheckerEngine(8, 8)] in an empty heap. *)
Definition standard_game : game := CheckerEngine.init Heap.empty 8 8.

(** The target encoding of column [x], row [y]. *)
Definition square (x y : Z) : Z := Z.lor (Z.shiftl x 4) y.

(** [engine.move(piece, target)] in a game, dropping the report. *)
Definition play (g : option game) (piece : ref) (target : Z) : option game :=
  match g with
  | Some (h, e) =>
      match CheckerEngine.move h e piece target with
      | Some (h', e', _) => Some (h', e')
      | None => None
      end
  | None => None
  end.

(** The game an optional game holds; the runs below never take the
    default. *)
Definition resume (g : option game) : game :=
  match g with Some g => g | None => standard_game end.

(** Two moves from the start: the red piece of (5,5) steps to (6,4), then
    the red piece of (1,5) goes to (4,4).  Pieces are named by their place
    in the order of generation: 21 and 17 are these two, 9 is the black
    piece of (1,1) and 18 the black piece of (2,2). *)
Definition opening1 : game := resume (play (Some standard_game) 21%nat (square 6 4)).
Definition opening2 : game := resume (play (Some opening1) 17%nat (square 4 4)).

(** A lone black king on (3,3) of an 8 by 8 board. *)
Definition king_game : game :=
  let (h, p) := Heap.new Heap.empty (Checker.init true false 3 3) in
  (h, CheckerEngine.mk (CheckerBoard.mk 8 8 [p]) 0).

(** ** The function [render_board] *)

(** Where [l[i]] looks: a list index counts from the end when negative,
    and [None] is the [IndexError] of an index out of range. *)
Definition index {A : Type} (l : list A) (i : Z) : option nat :=
  let n := Z.of_nat (List.length l) in
  if (0 <=? i) && (i <? n) then Some (Z.to_nat i)
  else if (- n <=? i) && (i <? 0) then Some (Z.to_nat (i + n))
  else None.

(** [l[i]]. *)
Definition get_item {A : Type} (l : list A) (i : Z) : option A :=
  match index l i with
  | Some k => nth_error l k
  | None => None
  end.

(** The list at position [k] replaced. *)
Fixpoint replace_nth {A : Type} (k : nat) (v : A) (l : list A) : list A :=
  match l, k with
  | [], _ => []
  | _ :: l', O => v :: l'
  | a :: l', S k' => a :: replace_nth k' v l'
  end.

(** [l[i] = v]. *)
Definition set_item {A : Type} (l : list A) (i : Z) (v : A)
  : option (list A) :=
  match index l i with
  | Some k => Some (replace_nth k v l)
  | None => None
  end.

(** The two nested loops that fill [tabulate_array] with empty strings:
    the inner one builds a row, the outer one appends the rows. *)
Definition blank_row (width : Z) : list string :=
  fold_left (fun row _ => row ++ [EmptyString]) (range width) [].

Definition blank_array (width height : Z) : list (list string) :=
  fold_left (fun arr _ => arr ++ [blank_row width]) (range height) [].

(** The text [checker] a piece is drawn with. *)
Definition marker (h : Heap.t) (piece : ref) : string :=
  let checker := EmptyString in
  let checker :=
    if (get_color h piece =? "Black")%string then "B"%string else checker in
  let checker :=
    if (get_color h piece =? "Red")%string then "R"%string else checker in
  if is_king h piece then ("K" ++ checker)%string else checker.

(** The body of [for piece in board.pieces]: the cell is read, then
    written. *)
Definition draw_piece (h : Heap.t) (arr : list (list string)) (piece : ref)
  : option (list (list string)) :=
  match get_item arr (get_y_pos h piece) with
  | None => None
  | Some row =>
      match get_item row (get_x_pos h piece) with
      | None => None
      | Some cell =>
          match set_item row (get_x_pos h piece)
                         (cell ++ " " ++ marker h piece)%string with
          | None => None
          | Some row' => set_item arr (get_y_pos h piece) row'
          end
      end
  end.

Fixpoint draw_pieces (h : Heap.t) (arr : list (list string))
         (l : list ref) : option (list (list string)) :=
  match l with
  | [] => Some arr
  | piece :: l' =>
      match draw_piece h arr piece with
      | Some arr' => draw_pieces h arr' l'
      | None => None
      end
  end.

(** The array [render_board] hands to [tabulate]. *)
Definition render_array (h : Heap.t) (board : CheckerBoard.t)
  : option (list (list string)) :=
  draw_pieces h
              (blank_array (CheckerBoard.width board)
                           (CheckerBoard.height board))
              (CheckerBoard.pieces board).

(** [render_board(board)].  [tabulate] belongs to a library outside the
    repository and is a parameter here. *)
Definition render_board (tabulate : list (list string) -> string)
           (h : Heap.t) (board : CheckerBoard.t) : option string :=
  match render_array h board with
  | Some arr => Some (tabulate arr)
  | None => None
  end.

(** ** Vocabulary of the further statements *)

(** The square a piece stands on. *)
Definition position (h : Heap.t) (p : ref) : Z * Z :=
  (get_x_pos h p, get_y_pos h p).

(** A piece stands on the grid of a board. *)
Definition on_grid (h : Heap.t) (board : CheckerBoard.t) (p : ref) : Prop :=
  get_x_pos h p < CheckerBoard.width board
  /\ get_y_pos h p < CheckerBoard.height board.

(** A board in order: its pieces are objects of the heap, each stands on
    the grid on a square with even [row + column], and no two stand on
    the same square. *)
Definition in_order (h : Heap.t) (board : CheckerBoard.t) : Prop :=
  Forall (fun p => (p < Heap.next h)%nat) (CheckerBoard.pieces board)
  /\ Forall (fun p => on_grid h board p
                      /\ (get_y_pos h p + get_x_pos h p) mod 2 = 0)
            (CheckerBoard.pieces board)
  /\ NoDup (map (position h) (CheckerBoard.pieces board)).

(** The games a program gets to by building an engine, building further
    pieces of its own, and calling [move]. *)
Inductive played : game -> Prop :=
| played_init (width height : Z) :
    played (CheckerEngine.init Heap.empty width height)
| played_new (g : game) (king is_red : bool) (x_pos y_pos : Z) :
    played g ->
    played (fst (Heap.new (fst g) (Checker.init king is_red x_pos y_pos)),
            snd g)
| played_move (g : game) (moving_piece : ref) (move : Z)
              (h' : Heap.t) (e' : CheckerEngine.t)
              (rep : CheckerEngine.report) :
    played g ->
    CheckerEngine.move (fst g) (snd g) moving_piece move = Some (h', e', rep) ->
    played (h', e').

(** The pieces standing on column [x], row [y]. *)
Definition standing_on (h : Heap.t) (x y : Z) (l : list ref) : list ref :=
  filter (fun p => (get_x_pos h p =? x) && (get_y_pos h p =? y)) l.

(** What drawing the pieces of [l] adds to a cell, in order. *)
Definition drawn (h : Heap.t) (l : list ref) : string :=
  fold_right (fun p s => (" " ++ marker h p ++ s)%string) EmptyString l.

(** The cell of row [y], column [x] of an array. *)
Definition cell_at (arr : list (list string)) (x y : nat) : option string :=
  match nth_error arr y with
  | Some row => nth_error row x
  | None => None
  end.

(** A heap that has grown out of another: every object made before is
    still what it was. *)
Definition extends (h h' : Heap.t) : Prop :=
  (Heap.next h <= Heap.next h')%nat
  /\ forall p, (p < Heap.next h)%nat -> Heap.obj h' p = Heap.obj h p.

(** The square a [Checker] value stands on. *)
Definition square_of (c : Checker.t) : Z * Z :=
  (Checker.get_x_pos c, Checker.get_y_pos c).

(** A piece where generation puts it on a board: not a king, within the
    columns, and Black in one of the first [rows_to_generate] rows or Red
    in one of the last. *)
Definition in_camp (board : CheckerBoard.t) (c : Checker.t) : Prop :=
  Checker.is_king c = false
  /\ Checker.get_x_pos c < CheckerBoard.width board
  /\ ((Checker.get_color c = "Black"%string
       /\ Checker.get_y_pos c < CheckerBoard.rows_to_generate board)
      \/ (Checker.get_color c = "Red"%string
          /\ CheckerBoard.height board - CheckerBoard.rows_to_generate board
             <= Checker.get_y_pos c < CheckerBoard.height board)).

(** An array of [rows] rows of [columns] cells each. *)
Definition shaped (columns rows : nat) (arr : list (list string)) : Prop :=
  List.length arr = rows /\ Forall (fun row => List.length row = columns) arr.

(** A 3 by 3 board whose only piece stands on (5,5), off the grid: the
    collection is open to [add_piece], which checks nothing. *)
Definition stray_game : Heap.t * CheckerBoard.t :=
  let (h, p) := Heap.new Heap.empty (Checker.init false false 5 5) in
  (h, CheckerBoard.add_piece (CheckerBoard.mk 3 3 []) p).

(** The texts a cell holds when at most one piece stands on it. *)
Definition plain_cell (s : string) : Prop :=
  s = ""%string \/ s = " B"%string \/ s = " R"%string
  \/ s = " KB"%string \/ s = " KR"%string.

(** A stand-in for [tabulate] where an example needs one. *)
Definition no_tabulate (arr : list (list string)) : string := EmptyString.

(** ** Bit fields *)

Section Bits.

Lemma small_bits (n y i : Z) :
  0 <= y < 2 ^ n -> n <= i -> Z.testbit y i = false.
Proof.
  intros Hy Hi. destruct (Z.eq_dec y 0) as [->|Hne]; [apply Z.testbit_0_l|].
  apply Z.bits_above_log2; [lia|].
  assert (Z.log2 y < n); [|lia].
  apply Z.log2_lt_pow2; lia.
Qed.

(** Or-ing below a shifted value adds. *)
Lemma lor_add (a n b : Z) :
  0 <= n -> 0 <= b < 2 ^ n -> Z.lor (a * 2 ^ n) b = a * 2 ^ n + b.
Proof.
  intros Hn Hb.
  assert (Hd : Z.land (a * 2 ^ n) b = 0).
  { apply Z.bits_inj'; intros i Hi.
    rewrite Z.land_spec, Z.bits_0.
    destruct (Z.lt_ge_cases i n).
    - rewrite Z.mul_pow2_bits_low by lia. reflexivity.
    - rewrite (small_bits n b i) by lia. apply andb_false_r. }
  rewrite <- Z.lxor_lor by exact Hd.
  symmetry. apply Z.add_nocarry_lxor. exact Hd.
Qed.

Lemma flag_mod d n :
  0 <= n -> Z.shiftr (Z.land d (2 ^ n)) n = (d / 2 ^ n) mod 2.
Proof.
  intros Hn. rewrite Z.shiftr_land.
  replace (Z.shiftr (2 ^ n) n) with (Z.ones 1).
  - rewrite Z.land_ones by lia. rewrite Z.shiftr_div_pow2 by lia. reflexivity.
  - rewrite Z.shiftr_div_pow2 by lia. rewrite Z.div_same; [reflexivity|].
    apply Z.pow_nonzero; lia.
Qed.

(** The accessors in arithmetic. *)
Lemma y_pos_mod d : Checker.get_y_pos (Checker.mk d) = d mod 16.
Proof. unfold Checker.get_y_pos; simpl. apply (Z.land_ones d 4). lia. Qed.

Lemma x_pos_mod d : Checker.get_x_pos (Checker.mk d) = (d / 16) mod 16.
Proof.
  unfold Checker.get_x_pos; simpl.
  rewrite Z.shiftr_land. change (Z.shiftr 240 4) with (Z.ones 4).
  rewrite Z.land_ones by lia. rewrite Z.shiftr_div_pow2 by lia. reflexivity.
Qed.

Lemma is_king_mod d : Checker.is_king (Checker.mk d) = ((d / 512) mod 2 =? 1).
Proof.
  unfold Checker.is_king; simpl. change 512 with (2 ^ 9).
  rewrite (flag_mod d 9) by lia. destruct (_ =? 1); reflexivity.
Qed.

Lemma get_color_mod d :
  Checker.get_color (Checker.mk d)
  = if (d / 256) mod 2 =? 1 then "Red"%string else "Black"%string.
Proof.
  unfold Checker.get_color; simpl. change 256 with (2 ^ 8).
  rewrite (flag_mod d 8) by lia. reflexivity.
Qed.

Lemma pack_sum (king is_red : bool) (x y : Z) :
  0 <= x <= 15 -> 0 <= y <= 15 ->
  Z.lor (Z.lor (Z.lor (Z.shiftl (Z.b2z king) 9) (Z.shiftl (Z.b2z is_red) 8))
               (Z.shiftl x 4)) y
  = 512 * Z.b2z king + 256 * Z.b2z is_red + 16 * x + y.
Proof.
  intros Hx Hy. rewrite !Z.shiftl_mul_pow2 by lia.
  rewrite (lor_add (Z.b2z king) 9) by (destruct is_red; simpl; lia).
  replace (Z.b2z king * 2 ^ 9 + Z.b2z is_red * 2 ^ 8)
    with ((2 * Z.b2z king + Z.b2z is_red) * 2 ^ 8) by lia.
  rewrite lor_add by lia.
  replace ((2 * Z.b2z king + Z.b2z is_red) * 2 ^ 8 + x * 2 ^ 4)
    with ((32 * Z.b2z king + 16 * Z.b2z is_red + x) * 2 ^ 4) by lia.
  rewrite lor_add by lia. lia.
Qed.

(** The position write of [move]: everything below bit 8 is replaced. *)
Lemma relocate_sum (d move : Z) :
  0 <= move <= 255 ->
  Z.lor (Z.shiftl (Z.shiftr d 8) 8) move = 256 * (d / 256) + move.
Proof.
  intros Hm. rewrite Z.shiftl_mul_pow2, Z.shiftr_div_pow2 by lia.
  rewrite lor_add by lia. change (2 ^ 8) with 256. lia.
Qed.

End Bits.

Ltac fields :=
  rewrite ?y_pos_mod, ?x_pos_mod, ?is_king_mod, ?get_color_mod.

(** ** The class [Checker]: construction and the accessors *)

(** The fields of a sum of four in-range fields. *)
Lemma sum_fields (king is_red : bool) (x y : Z) :
  0 <= x <= 15 -> 0 <= y <= 15 ->
  let c := Checker.mk (512 * Z.b2z king + 256 * Z.b2z is_red + 16 * x + y) in
  Checker.is_king c = king
  /\ Checker.get_color c = (if is_red then "Red"%string else "Black"%string)
  /\ Checker.get_x_pos c = x
  /\ Checker.get_y_pos c = y.
Proof.
  intros Hx Hy c. subst c. fields.
  repeat split.
  - destruct king, is_red; simpl Z.b2z;
      match goal with |- (?a =? 1) = _ => destruct (Z.eqb_spec a 1) end;
      try reflexivity; exfalso; Z.div_mod_to_equations; lia.
  - destruct king, is_red; simpl Z.b2z;
      match goal with |- context [?a =? 1] => destruct (Z.eqb_spec a 1) end;
      try reflexivity; exfalso; Z.div_mod_to_equations; lia.
  - destruct king, is_red; simpl Z.b2z; Z.div_mod_to_equations; lia.
  - destruct king, is_red; simpl Z.b2z; Z.div_mod_to_equations; lia.
Qed.

Section CheckerFacts.

Variables (king is_red : bool) (x_pos y_pos : Z).

Let x_clamped := Z.max 0 (Z.min 15 x_pos).
Let y_clamped := Z.max 0 (Z.min 15 y_pos).

Lemma init_sum :
  Checker.init king is_red x_pos y_pos
  = Checker.mk (512 * Z.b2z king + 256 * Z.b2z is_red
                + 16 * x_clamped + y_clamped).
Proof.
  unfold Checker.init, x_clamped, y_clamped; cbv zeta. f_equal.
  destruct (Z.gtb_spec x_pos 15), (Z.gtb_spec y_pos 15);
    repeat match goal with
           | |- context [?a <? 0] => destruct (Z.ltb_spec a 0)
           end;
    try lia; rewrite pack_sum by lia; lia.
Qed.

Lemma init_ten_bit :
  ten_bit (Checker.data (Checker.init king is_red x_pos y_pos)).
Proof.
  rewrite init_sum. unfold ten_bit, x_clamped, y_clamped; cbn [Checker.data].
  destruct king, is_red; simpl Z.b2z; lia.
Qed.

Lemma init_fields :
  let c := Checker.init king is_red x_pos y_pos in
  Checker.is_king c = king
  /\ Checker.get_color c = (if is_red then "Red"%string else "Black"%string)
  /\ Checker.get_x_pos c = x_clamped
  /\ Checker.get_y_pos c = y_clamped.
Proof.
  cbv zeta. rewrite init_sum.
  apply sum_fields; unfold x_clamped, y_clamped; lia.
Qed.

End CheckerFacts.

(** C9.  Whatever the four arguments, [Checker(king, is_red, x_pos, y_pos)]
    is built (the constructor is a total function, it has no failing
    path), and the column and the row it stores are the arguments
    saturated into 0..15: 0 for a negative argument, 15 for one above 15,
    the argument itself otherwise. *)
Theorem init_clamps (king is_red : bool) (x_pos y_pos : Z) :
  let c := Checker.init king is_red x_pos y_pos in
  (x_pos < 0 -> Checker.get_x_pos c = 0)
  /\ (15 < x_pos -> Checker.get_x_pos c = 15)
  /\ (0 <= x_pos <= 15 -> Checker.get_x_pos c = x_pos)
  /\ (y_pos < 0 -> Checker.get_y_pos c = 0)
  /\ (15 < y_pos -> Checker.get_y_pos c = 15)
  /\ (0 <= y_pos <= 15 -> Checker.get_y_pos c = y_pos).
Proof.
  intros c. subst c.
  destruct (init_fields king is_red x_pos y_pos) as (_ & _ & -> & ->).
  repeat split; intros; lia.
Qed.

Lemma init_clamps_witness :
  Checker.get_x_pos (Checker.init true false (-3) 99) = 0
  /\ Checker.get_y_pos (Checker.init true false (-3) 99) = 15.
Proof.
  destruct (init_clamps true false (-3) 99) as (Hx & _ & _ & _ & Hy & _).
  split; [apply Hx; lia | apply Hy; lia].
Defined.

Lemma color_is_red (b : bool) :
  ((if b then "Red" else "Black") =? "Red")%string = b.
Proof. destruct b; reflexivity. Qed.

(** The fields of any ten-bit code. *)
Lemma ten_bit_fields (c : Checker.t) :
  ten_bit (Checker.data c) ->
  Checker.data c
  = 512 * Z.b2z (Checker.is_king c)
    + 256 * Z.b2z (Checker.get_color c =? "Red")%string
    + 16 * Checker.get_x_pos c + Checker.get_y_pos c.
Proof.
  destruct c as [d]; unfold ten_bit; cbn [Checker.data]; intros Hd.
  fields. rewrite color_is_red.
  destruct (Z.eqb_spec ((d / 512) mod 2) 1), (Z.eqb_spec ((d / 256) mod 2) 1);
    cbn [Z.b2z]; Z.div_mod_to_equations; lia.
Qed.

Lemma x_pos_range (c : Checker.t) : 0 <= Checker.get_x_pos c <= 15.
Proof. destruct c as [d]. fields. Z.div_mod_to_equations; lia. Qed.

Lemma y_pos_range (c : Checker.t) : 0 <= Checker.get_y_pos c <= 15.
Proof. destruct c as [d]. fields. Z.div_mod_to_equations; lia. Qed.

(** C7.  Reading the king flag, the colour, the column and the row of a
    piece through the accessors and packing them again in the canonical
    layout gives back the code the piece stores, for every ten-bit
    code. *)
Theorem decode_encode (c : Checker.t) :
  ten_bit (Checker.data c) ->
  encode (Checker.is_king c) (Checker.get_color c)
         (Checker.get_x_pos c) (Checker.get_y_pos c)
  = Checker.data c.
Proof.
  intros Hd. unfold encode.
  rewrite pack_sum by (apply x_pos_range || apply y_pos_range).
  symmetry. apply ten_bit_fields. exact Hd.
Qed.

Lemma decode_encode_witness :
  encode (Checker.is_king (Checker.init true true 3 5))
         (Checker.get_color (Checker.init true true 3 5))
         (Checker.get_x_pos (Checker.init true true 3 5))
         (Checker.get_y_pos (Checker.init true true 3 5))
  = Checker.data (Checker.init true true 3 5).
Proof. apply decode_encode. unfold ten_bit. simpl. lia. Defined.

(** ** Writes to a piece *)

Lemma set_data_same (h : Heap.t) (p : ref) (d : Z) :
  Heap.obj (Heap.set_data h p d) p = Checker.mk d.
Proof. unfold Heap.set_data; simpl. rewrite Nat.eqb_refl. reflexivity. Qed.

Lemma set_data_other (h : Heap.t) (p q : ref) (d : Z) :
  q <> p -> Heap.obj (Heap.set_data h p d) q = Heap.obj h q.
Proof.
  intros Hq. unfold Heap.set_data; simpl.
  destruct (Nat.eqb_spec q p); [contradiction | reflexivity].
Qed.

(** Setting the king bit leaves colour and position alone. *)
Lemma crown_fields (d : Z) :
  let c := Checker.mk (Z.lor d 512) in
  Checker.is_king c = true
  /\ Checker.get_color c = Checker.get_color (Checker.mk d)
  /\ Checker.get_x_pos c = Checker.get_x_pos (Checker.mk d)
  /\ Checker.get_y_pos c = Checker.get_y_pos (Checker.mk d).
Proof.
  cbv zeta.
  unfold Checker.is_king, Checker.get_color, Checker.get_x_pos,
    Checker.get_y_pos; cbn [Checker.data].
  rewrite !Z.land_lor_distr_l.
  change (Z.land 512 256) with 0. change (Z.land 512 240) with 0.
  change (Z.land 512 15) with 0. change (Z.land 512 512) with 512.
  rewrite !Z.lor_0_r. repeat split.
  rewrite Z.shiftr_lor. change 512 with (2 ^ 9) at 1.
  rewrite flag_mod by lia. change (Z.shiftr 512 9) with 1.
  assert (H : (d / 2 ^ 9) mod 2 = 0 \/ (d / 2 ^ 9) mod 2 = 1)
    by (Z.div_mod_to_equations; lia).
  destruct H as [-> | ->]; reflexivity.
Qed.

Lemma crown_ten_bit (d : Z) : ten_bit d -> ten_bit (Z.lor d 512).
Proof.
  unfold ten_bit; intros Hd. split.
  - apply Z.lor_nonneg; lia.
  - destruct (Z.eq_dec (Z.lor d 512) 0) as [->|Hne]; [lia|].
    apply Z.log2_lt_cancel. rewrite Z.log2_lor by lia.
    change (Z.log2 1024) with 10. change (Z.log2 512) with 9.
    destruct (Z.eq_dec d 0) as [->|Hd0]; [simpl; lia|].
    assert (Z.log2 d < 10) by (apply Z.log2_lt_pow2; lia). lia.
Qed.

(** The position write of [move]: king flag and colour stay, column and
    row become those of the target. *)
Lemma relocate_fields (d move : Z) :
  0 <= move <= 255 ->
  let c := Checker.mk (Z.lor (Z.shiftl (Z.shiftr d 8) 8) move) in
  Checker.is_king c = Checker.is_king (Checker.mk d)
  /\ Checker.get_color c = Checker.get_color (Checker.mk d)
  /\ Checker.get_x_pos c = CheckerEngine.move_x move
  /\ Checker.get_y_pos c = CheckerEngine.move_y move.
Proof.
  intros Hm; cbv zeta. rewrite relocate_sum by exact Hm.
  unfold CheckerEngine.move_x, CheckerEngine.move_y.
  rewrite (Z.shiftr_div_pow2 move 4) by lia.
  change 15 with (Z.ones 4). rewrite (Z.land_ones move 4) by lia.
  change (2 ^ 4) with 16. fields.
  repeat split.
  - f_equal. Z.div_mod_to_equations; lia.
  - replace ((256 * (d / 256) + move) / 256) with (d / 256)
      by (Z.div_mod_to_equations; lia).
    reflexivity.
  - Z.div_mod_to_equations; lia.
  - Z.div_mod_to_equations; lia.
Qed.

Lemma relocate_ten_bit (d move : Z) :
  0 <= move <= 255 -> ten_bit d ->
  ten_bit (Z.lor (Z.shiftl (Z.shiftr d 8) 8) move).
Proof.
  unfold ten_bit; intros Hm Hd. rewrite relocate_sum by exact Hm.
  Z.div_mod_to_equations; lia.
Qed.

(** ** [list.remove] *)

Lemma list_remove_in (x : ref) (l : list ref) :
  In x l -> exists l', list_remove x l = Some l'.
Proof.
  induction l as [|y l IH]; simpl; [contradiction|].
  intros [-> | Hin].
  - rewrite Nat.eqb_refl. eauto.
  - destruct (Nat.eqb y x); [eauto|].
    destruct (IH Hin) as [l' ->]. eauto.
Qed.

Lemma list_remove_length (x : ref) (l l' : list ref) :
  list_remove x l = Some l' -> S (List.length l') = List.length l.
Proof.
  revert l'. induction l as [|y l IH]; simpl; intros l'; [discriminate|].
  destruct (Nat.eqb y x).
  - intros [= <-]. reflexivity.
  - destruct (list_remove x l) as [r|]; [|discriminate].
    intros [= <-]. simpl. f_equal. apply IH. reflexivity.
Qed.

(** ** The scan for a jumped piece *)

Section Scan.

Variables (h : Heap.t) (moving_piece : ref) (move : Z).

Let find := CheckerEngine.find_jumped h moving_piece move.

(** A piece of the mover's colour at one of the offsets makes the loop
    return, whatever was found before. *)
Lemma find_jumped_blocked (l : list ref) (j : option ref) :
  existsb (blocks h moving_piece move) l = true ->
  exists j', find l j = Returned j'.
Proof.
  subst find. revert j. induction l as [|p l IH]; simpl; [discriminate|].
  intros j. unfold blocks at 1, CheckerEngine.look.
  destruct (CheckerEngine.at_offset_plus h p move),
    (CheckerEngine.at_offset_minus h p move),
    (CheckerEngine.same_color h p moving_piece); simpl; eauto.
Qed.

(** And nothing else does. *)
Lemma find_jumped_returned (l : list ref) (j j' : option ref) :
  find l j = Returned j' ->
  existsb (blocks h moving_piece move) l = true.
Proof.
  subst find. revert j. induction l as [|p l IH]; simpl; [discriminate|].
  intros j. unfold blocks at 1, CheckerEngine.look.
  destruct (CheckerEngine.at_offset_plus h p move),
    (CheckerEngine.at_offset_minus h p move),
    (CheckerEngine.same_color h p moving_piece); simpl; eauto.
Qed.

(** With no piece at either offset the loop runs to its end and leaves
    [jumped_piece] as it was. *)
Lemma find_jumped_nobody (l : list ref) (j : option ref) :
  existsb (beside h move) l = false -> find l j = Finished j.
Proof.
  subst find. revert j. induction l as [|p l IH]; simpl; [reflexivity|].
  intros j. unfold beside at 1, CheckerEngine.look.
  destruct (CheckerEngine.at_offset_plus h p move),
    (CheckerEngine.at_offset_minus h p move); simpl;
    try discriminate; eauto.
Qed.

(** The piece the loop holds at its end is the one it started with or
    one of the list. *)
Lemma find_jumped_held (l : list ref) (j : option ref) (p : ref) :
  held (find l j) = Some p -> j = Some p \/ In p l.
Proof.
  subst find. revert j. induction l as [|q l IH]; simpl; [auto|].
  intros j. unfold CheckerEngine.look.
  destruct (CheckerEngine.at_offset_plus h q move),
    (CheckerEngine.at_offset_minus h q move),
    (CheckerEngine.same_color h q moving_piece); simpl; auto;
    intros H; apply IH in H; destruct H as [[= ->] | H]; auto.
Qed.

End Scan.

(** ** [movement_check] *)

Section Validation.

Variables (h : Heap.t) (self : CheckerEngine.t) (moving_piece : ref)
          (move : Z).

Let result := CheckerEngine.movement_check h self moving_piece move.
Let pieces := CheckerBoard.pieces (CheckerEngine.board self).

(** A test that fails before the jump logic returns the initial values
    of [move_is_jump] and [jumped_piece], and the heap untouched. *)
Lemma movement_check_rejected :
  rejected_before_jump h self moving_piece move = true ->
  result = (h, (false, false, None)).
Proof.
  subst result.
  unfold rejected_before_jump, CheckerEngine.movement_check.
  destruct (CheckerEngine.bad_parameter move); [reflexivity|].
  destruct (CheckerEngine.off_grid_x self move); [reflexivity|].
  destruct (CheckerEngine.off_grid_y self move); [reflexivity|].
  destruct (CheckerEngine.to_red_square move); [reflexivity|].
  destruct (CheckerEngine.not_diagonal h moving_piece move); [reflexivity|].
  destruct (CheckerEngine.backwards_black h moving_piece move); [reflexivity|].
  destruct (CheckerEngine.backwards_red h moving_piece move); [reflexivity|].
  destruct (CheckerEngine.occupied h self move); [reflexivity|].
  discriminate.
Qed.

(** Past those tests the direction tests of the jump logic cannot fire
    again, and the outcome is that of the scan. *)
Lemma movement_check_passed :
  rejected_before_jump h self moving_piece move = false ->
  result =
  if CheckerEngine.attempts_jump h moving_piece move
  then match CheckerEngine.find_jumped h moving_piece move pieces None with
       | Returned j => (h, (false, true, j))
       | Finished j =>
           (CheckerEngine.promote h self moving_piece move, (true, true, j))
       end
  else (CheckerEngine.promote h self moving_piece move, (true, false, None)).
Proof.
  subst result pieces.
  unfold rejected_before_jump, CheckerEngine.movement_check.
  destruct (CheckerEngine.bad_parameter move); [discriminate|].
  destruct (CheckerEngine.off_grid_x self move); [discriminate|].
  destruct (CheckerEngine.off_grid_y self move); [discriminate|].
  destruct (CheckerEngine.to_red_square move); [discriminate|].
  destruct (CheckerEngine.not_diagonal h moving_piece move); [discriminate|].
  destruct (CheckerEngine.backwards_black h moving_piece move); [discriminate|].
  destruct (CheckerEngine.backwards_red h moving_piece move); [discriminate|].
  destruct (CheckerEngine.occupied h self move); [discriminate|].
  intros _. cbv zeta.
  destruct (CheckerEngine.attempts_jump h moving_piece move); reflexivity.
Qed.

(** A legal move comes with a target in 0..255. *)
Lemma legal_in_range : legal result = true -> 0 <= move <= 255.
Proof.
  destruct (rejected_before_jump h self moving_piece move) eqn:E.
  - rewrite (movement_check_rejected E). discriminate.
  - intros _. unfold rejected_before_jump in E.
    rewrite !orb_false_iff in E.
    destruct E as [[[[[[[E _] _] _] _] _] _] _].
    unfold CheckerEngine.bad_parameter in E.
    rewrite orb_false_iff in E. lia.
Qed.

(** A jump past a piece of the mover's colour at one of the two offsets
    is reported illegal, as a jump, and the mover is not promoted. *)
Lemma own_colour_jump_illegal :
  rejected_before_jump h self moving_piece move = false ->
  CheckerEngine.attempts_jump h moving_piece move = true ->
  existsb (blocks h moving_piece move) pieces = true ->
  legal result = false /\ is_jump result = true /\ fst result = h.
Proof.
  intros Hg Hj Hb. rewrite (movement_check_passed Hg), Hj.
  destruct (find_jumped_blocked h moving_piece move pieces None Hb)
    as [j ->].
  repeat split.
Qed.

End Validation.

(** C1, as the code has it.  When [movement_check] reports a move illegal,
    either one of the tests before the jump logic failed, and it returns
    [(False, False, None)]; or the move had been classified as a jump and
    a piece of the mover's colour sits at one of the two offsets, and it
    returns [True] for the jump flag.  In both cases the heap is left as it
    was. *)
Theorem illegal_result (h : Heap.t) (self : CheckerEngine.t)
        (moving_piece : ref) (move : Z) :
  let r := CheckerEngine.movement_check h self moving_piece move in
  legal r = false ->
  fst r = h
  /\ ((rejected_before_jump h self moving_piece move = true
       /\ is_jump r = false /\ jumped_piece r = None)
      \/ (rejected_before_jump h self moving_piece move = false
          /\ CheckerEngine.attempts_jump h moving_piece move = true
          /\ existsb (blocks h moving_piece move)
                     (CheckerBoard.pieces (CheckerEngine.board self)) = true
          /\ is_jump r = true)).
Proof.
  cbv zeta.
  destruct (rejected_before_jump h self moving_piece move) eqn:Hg.
  - rewrite (movement_check_rejected _ _ _ _ Hg). intros _.
    split; [reflexivity | left; repeat split].
  - rewrite (movement_check_passed _ _ _ _ Hg).
    destruct (CheckerEngine.attempts_jump h moving_piece move);
      [|discriminate].
    destruct (CheckerEngine.find_jumped _ _ _ _ _) as [j|j] eqn:Hs;
      [|discriminate].
    intros _. split; [reflexivity | right; repeat split].
    exact (find_jumped_returned _ _ _ _ _ _ Hs).
Qed.

Lemma illegal_result_witness :
  let r := CheckerEngine.movement_check (fst standard_game) (snd standard_game)
                                        9%nat (square 3 3) in
  legal r = false
  /\ fst r = fst standard_game
  /\ existsb (blocks (fst standard_game) 9%nat (square 3 3))
             (CheckerBoard.pieces (CheckerEngine.board (snd standard_game)))
     = true
  /\ is_jump r = true.
Proof.
  cbv zeta.
  assert (Hl : legal (CheckerEngine.movement_check
                        (fst standard_game) (snd standard_game)
                        9%nat (square 3 3)) = false)
    by (vm_compute; reflexivity).
  destruct (illegal_result (fst standard_game) (snd standard_game)
                           9%nat (square 3 3) Hl)
    as [Hh [(Hg & _) | (_ & _ & Hb & Hj)]].
  - vm_compute in Hg. discriminate Hg.
  - exact (conj Hl (conj Hh (conj Hb Hj))).
Defined.

(** C1 as stated fails: at the start of a standard game the black piece of
    (1,1) asked to go to (3,3), past the black piece of (2,2), is refused
    with the jump flag set. *)
Lemma illegal_result_counterexample :
  ~ (forall h self moving_piece move,
        let r := CheckerEngine.movement_check h self moving_piece move in
        legal r = false -> is_jump r = false /\ jumped_piece r = None).
Proof.
  intros H.
  specialize (H (fst standard_game) (snd standard_game) 9%nat (square 3 3)).
  vm_compute in H. destruct (H eq_refl) as [H' _]. discriminate H'.
Qed.

(** C3, as the code has it.  [movement_check] returns the jump flag set
    exactly when the move gets past the tests that come before the jump
    logic and the mover's column is more than one away from the target's;
    of the two positions only the columns enter the classification
    itself. *)
Theorem jump_classification (h : Heap.t) (self : CheckerEngine.t)
        (moving_piece : ref) (move : Z) :
  is_jump (CheckerEngine.movement_check h self moving_piece move) = true
  <-> rejected_before_jump h self moving_piece move = false
      /\ (get_x_pos h moving_piece > CheckerEngine.move_x move + 1
          \/ get_x_pos h moving_piece < CheckerEngine.move_x move - 1).
Proof.
  assert (Hj : CheckerEngine.attempts_jump h moving_piece move = true
               <-> get_x_pos h moving_piece > CheckerEngine.move_x move + 1
                   \/ get_x_pos h moving_piece < CheckerEngine.move_x move - 1).
  { unfold CheckerEngine.attempts_jump. rewrite orb_true_iff.
    rewrite Z.gtb_gt, Z.ltb_lt. reflexivity. }
  rewrite <- Hj.
  destruct (rejected_before_jump h self moving_piece move) eqn:Hg.
  - rewrite (movement_check_rejected _ _ _ _ Hg). simpl.
    split; [discriminate | intros [? _]; discriminate].
  - rewrite (movement_check_passed _ _ _ _ Hg).
    destruct (CheckerEngine.attempts_jump h moving_piece move).
    + destruct (CheckerEngine.find_jumped _ _ _ _ _); simpl; tauto.
    + simpl. split; [discriminate | intros [_ ?]; discriminate].
Qed.

Lemma jump_classification_witness :
  rejected_before_jump (fst standard_game) (snd standard_game)
                       16%nat (square 2 4) = false
  /\ get_x_pos (fst standard_game) 16%nat < CheckerEngine.move_x (square 2 4) - 1
  /\ is_jump (CheckerEngine.movement_check
                (fst standard_game) (snd standard_game)
                16%nat (square 2 4)) = true.
Proof.
  assert (Hg : rejected_before_jump (fst standard_game) (snd standard_game)
                                    16%nat (square 2 4) = false)
    by (vm_compute; reflexivity).
  assert (Hx : get_x_pos (fst standard_game) 16%nat
               < CheckerEngine.move_x (square 2 4) - 1)
    by (vm_compute; reflexivity).
  split; [exact Hg | split; [exact Hx |]].
  apply (proj2 (jump_classification _ _ _ _)). split; [exact Hg | right; exact Hx].
Defined.

(** C3 as stated fails: at the start of a standard game the black piece of
    (0,0) asked to go to (2,2) is two columns away, but (2,2) is occupied
    and the jump flag comes back unset. *)
Lemma jump_classification_counterexample :
  ~ (forall h self moving_piece move,
        is_jump (CheckerEngine.movement_check h self moving_piece move) = true
        <-> (get_x_pos h moving_piece > CheckerEngine.move_x move + 1
             \/ get_x_pos h moving_piece < CheckerEngine.move_x move - 1)).
Proof.
  intros H.
  destruct (H (fst standard_game) (snd standard_game) 0%nat (square 2 2))
    as [_ H'].
  assert (Hx : get_x_pos (fst standard_game) 0%nat
               < CheckerEngine.move_x (square 2 2) - 1)
    by (vm_compute; reflexivity).
  specialize (H' (or_intror Hx)). vm_compute in H'. discriminate H'.
Qed.

(** C4.  A black piece that is not a king is refused every move whose
    target row is not above its own ([row >= target row]), a red piece
    that is not a king every move whose target row is not below its own
    ([row <= target row]).  For a king neither direction test fires: its
    move is legal exactly when the other tests pass, whichever way it
    goes. *)
Theorem forward_gate (h : Heap.t) (self : CheckerEngine.t)
        (moving_piece : ref) (move : Z) :
  let r := CheckerEngine.movement_check h self moving_piece move in
  (is_king h moving_piece = false ->
   get_color h moving_piece = "Black"%string ->
   get_y_pos h moving_piece >= CheckerEngine.move_y move ->
   legal r = false)
  /\ (is_king h moving_piece = false ->
      get_color h moving_piece = "Red"%string ->
      get_y_pos h moving_piece <= CheckerEngine.move_y move ->
      legal r = false)
  /\ (is_king h moving_piece = true ->
      CheckerEngine.backwards_black h moving_piece move = false
      /\ CheckerEngine.backwards_red h moving_piece move = false
      /\ legal r
         = negb (CheckerEngine.bad_parameter move
                 || CheckerEngine.off_grid_x self move
                 || CheckerEngine.off_grid_y self move
                 || CheckerEngine.to_red_square move
                 || CheckerEngine.not_diagonal h moving_piece move
                 || CheckerEngine.occupied h self move)
           && negb (CheckerEngine.attempts_jump h moving_piece move
                    && existsb (blocks h moving_piece move)
                               (CheckerBoard.pieces
                                  (CheckerEngine.board self)))).
Proof.
  cbv zeta. split; [|split].
  - intros Hk Hc Hy.
    rewrite movement_check_rejected; [reflexivity|].
    unfold rejected_before_jump.
    replace (CheckerEngine.backwards_black h moving_piece move) with true.
    + rewrite !orb_true_r. reflexivity.
    + unfold CheckerEngine.backwards_black. rewrite Hk, Hc.
      replace (get_y_pos h moving_piece >=? CheckerEngine.move_y move)
        with true by (symmetry; apply Z.geb_le; lia).
      reflexivity.
  - intros Hk Hc Hy.
    rewrite movement_check_rejected; [reflexivity|].
    unfold rejected_before_jump.
    replace (CheckerEngine.backwards_red h moving_piece move) with true.
    + rewrite !orb_true_r. reflexivity.
    + unfold CheckerEngine.backwards_red. rewrite Hk, Hc.
      apply Z.leb_le in Hy. rewrite Hy. reflexivity.
  - intros Hk.
    assert (Hb : CheckerEngine.backwards_black h moving_piece move = false)
      by (unfold CheckerEngine.backwards_black; rewrite Hk;
          apply andb_false_intro1, andb_false_r).
    assert (Hr : CheckerEngine.backwards_red h moving_piece move = false)
      by (unfold CheckerEngine.backwards_red; rewrite Hk;
          apply andb_false_intro1, andb_false_r).
    split; [exact Hb | split; [exact Hr |]].
    destruct (rejected_before_jump h self moving_piece move) eqn:Hg.
    + rewrite (movement_check_rejected _ _ _ _ Hg).
      unfold rejected_before_jump in Hg. rewrite Hb, Hr in Hg.
      rewrite !orb_false_r in Hg. rewrite Hg. reflexivity.
    + rewrite (movement_check_passed _ _ _ _ Hg).
      unfold rejected_before_jump in Hg. rewrite Hb, Hr in Hg.
      rewrite !orb_false_r in Hg. rewrite Hg.
      destruct (CheckerEngine.attempts_jump h moving_piece move);
        [|reflexivity].
      destruct (CheckerEngine.find_jumped _ _ _ _ _) as [j|j] eqn:Hs.
      * rewrite (find_jumped_returned _ _ _ _ _ _ Hs). reflexivity.
      * destruct (existsb _ _) eqn:Hx; [|reflexivity].
        destruct (find_jumped_blocked _ _ _ _ None Hx) as [j' Hj'].
        rewrite Hj' in Hs. discriminate Hs.
Qed.

Lemma forward_gate_witness :
  legal (CheckerEngine.movement_check (fst standard_game) (snd standard_game)
                                      16%nat (square 1 1)) = false
  /\ legal (CheckerEngine.movement_check (fst standard_game) (snd standard_game)
                                         17%nat (square 2 6)) = false
  /\ CheckerEngine.backwards_black (fst king_game) 0%nat (square 2 2) = false.
Proof.
  split; [|split].
  - apply (proj1 (forward_gate (fst standard_game) (snd standard_game)
                               16%nat (square 1 1)));
      [reflexivity | reflexivity | vm_compute; discriminate].
  - apply (proj1 (proj2 (forward_gate (fst standard_game) (snd standard_game)
                                      17%nat (square 2 6))));
      [reflexivity | reflexivity | vm_compute; discriminate].
  - apply (proj2 (proj2 (forward_gate (fst king_game) (snd king_game)
                                      0%nat (square 2 2)))).
    reflexivity.
Defined.

(** A king does move backwards: the lone black king of (3,3) may go to
    (2,2). *)
Example king_moves_backwards :
  snd (CheckerEngine.movement_check (fst king_game) (snd king_game)
                                    0%nat (square 2 2))
  = (true, false, None).
Proof. vm_compute. reflexivity. Qed.

(** C10.  A move that passes the tests before the jump logic, is
    classified as a jump, and finds no piece of either colour at
    (target column + 1, target row + 1) or (target column - 1,
    target row - 1) is accepted as [(True, True, None)]: a jump over
    nothing. *)
Theorem empty_jump_accepted (h : Heap.t) (self : CheckerEngine.t)
        (moving_piece : ref) (move : Z) :
  rejected_before_jump h self moving_piece move = false ->
  CheckerEngine.attempts_jump h moving_piece move = true ->
  existsb (beside h move) (CheckerBoard.pieces (CheckerEngine.board self))
  = false ->
  snd (CheckerEngine.movement_check h self moving_piece move)
  = (true, true, None).
Proof.
  intros Hg Hj Hn.
  rewrite (movement_check_passed _ _ _ _ Hg), Hj.
  rewrite (find_jumped_nobody _ _ _ _ _ Hn). reflexivity.
Qed.

Lemma empty_jump_accepted_witness :
  rejected_before_jump (fst opening1) (snd opening1) 17%nat (square 4 4) = false
  /\ CheckerEngine.attempts_jump (fst opening1) 17%nat (square 4 4) = true
  /\ existsb (beside (fst opening1) (square 4 4))
             (CheckerBoard.pieces (CheckerEngine.board (snd opening1)))
     = false
  /\ snd (CheckerEngine.movement_check (fst opening1) (snd opening1)
                                       17%nat (square 4 4))
     = (true, true, None).
Proof.
  assert (Hg : rejected_before_jump (fst opening1) (snd opening1)
                                    17%nat (square 4 4) = false)
    by (vm_compute; reflexivity).
  assert (Hj : CheckerEngine.attempts_jump (fst opening1) 17%nat (square 4 4)
               = true)
    by (vm_compute; reflexivity).
  assert (Hn : existsb (beside (fst opening1) (square 4 4))
                       (CheckerBoard.pieces (CheckerEngine.board (snd opening1)))
               = false)
    by (vm_compute; reflexivity).
  exact (conj Hg (conj Hj (conj Hn (empty_jump_accepted _ _ _ _ Hg Hj Hn)))).
Defined.

(** ** Promotion and [move] *)

Section Execution.

Variables (h : Heap.t) (self : CheckerEngine.t) (moving_piece : ref)
          (move : Z).

Let result := CheckerEngine.movement_check h self moving_piece move.
Let pieces := CheckerBoard.pieces (CheckerEngine.board self).
Let promoted := CheckerEngine.promote h self moving_piece move.

Lemma promote_other (q : ref) :
  q <> moving_piece -> Heap.obj promoted q = Heap.obj h q.
Proof.
  intros Hq. subst promoted. unfold CheckerEngine.promote.
  destruct (get_color h moving_piece =? "Red")%string;
    match goal with |- context [if ?b then _ else _] => destruct b end;
    auto using set_data_other.
Qed.

Lemma promote_mover :
  is_king promoted moving_piece
  = is_king h moving_piece || reaches_far_row h self moving_piece move
  /\ get_color promoted moving_piece = get_color h moving_piece
  /\ get_x_pos promoted moving_piece = get_x_pos h moving_piece
  /\ get_y_pos promoted moving_piece = get_y_pos h moving_piece.
Proof.
  subst promoted.
  unfold CheckerEngine.promote, reaches_far_row,
    is_king, get_color, get_x_pos, get_y_pos, data_of.
  destruct (Heap.obj h moving_piece) as [d] eqn:Hd.
  destruct (crown_fields d) as (Hk & Hc & Hx & Hy).
  destruct (Checker.get_color (Checker.mk d) =? "Red")%string;
    match goal with |- context [if ?b then _ else _] => destruct b end;
    rewrite ?set_data_same, ?Hd, ?Hk, ?Hc, ?Hx, ?Hy, ?orb_true_r,
      ?orb_false_r; cbn [Checker.data];
    rewrite ?Hk, ?Hc, ?Hx, ?Hy; auto.
Qed.

Lemma legal_heap : legal result = true -> fst result = promoted.
Proof.
  subst result promoted.
  destruct (rejected_before_jump h self moving_piece move) eqn:Hg.
  - rewrite (movement_check_rejected _ _ _ _ Hg). discriminate.
  - rewrite (movement_check_passed _ _ _ _ Hg).
    destruct (CheckerEngine.attempts_jump h moving_piece move);
      [|reflexivity].
    destruct (CheckerEngine.find_jumped _ _ _ _ _);
      [discriminate | reflexivity].
Qed.

(** The piece [movement_check] names is one of the board's. *)
Lemma jumped_in_collection (p : ref) :
  jumped_piece result = Some p -> In p pieces.
Proof.
  subst result pieces.
  destruct (rejected_before_jump h self moving_piece move) eqn:Hg.
  - rewrite (movement_check_rejected _ _ _ _ Hg). discriminate.
  - rewrite (movement_check_passed _ _ _ _ Hg).
    destruct (CheckerEngine.attempts_jump h moving_piece move);
      [|discriminate].
    intros Hp.
    destruct (find_jumped_held h moving_piece move
                (CheckerBoard.pieces (CheckerEngine.board self)) None p)
      as [H | H]; [|discriminate H | exact H].
    destruct (CheckerEngine.find_jumped _ _ _ _ _); exact Hp.
Qed.

(** So the [remove] of [move] never raises. *)
Lemma move_returns :
  exists h' self' rep,
    CheckerEngine.move h self moving_piece move = Some (h', self', rep).
Proof.
  unfold CheckerEngine.move.
  assert (Hin := jumped_in_collection). subst result pieces.
  destruct (CheckerEngine.movement_check h self moving_piece move)
    as [h1 [[l j] [p|]]]; [|eauto].
  destruct j; [|eauto].
  destruct (list_remove_in p _ (Hin p eq_refl)) as [l' ->]. eauto.
Qed.

(** Without a jumped piece the collection is left alone. *)
Lemma move_keeps_collection h' self' rep :
  jumped_piece result = None ->
  CheckerEngine.move h self moving_piece move = Some (h', self', rep) ->
  self' = self.
Proof.
  subst result. unfold CheckerEngine.move, jumped_piece.
  destruct (CheckerEngine.movement_check h self moving_piece move)
    as [h1 [[l j] jp]]; simpl.
  intros ->. intros [= _ <- _]. reflexivity.
Qed.

End Execution.

(** C8.  Executing a legal move never fails, and when it is done the
    mover's column and row are those of the target, its king flag is the
    one validation left (the flag it had, or set if the move reaches the
    far row), its colour is unchanged, and no other object has been
    written. *)
Theorem move_updates_position (h : Heap.t) (self : CheckerEngine.t)
        (moving_piece : ref) (move : Z) :
  let r := CheckerEngine.movement_check h self moving_piece move in
  legal r = true ->
  exists h' self' rep,
    CheckerEngine.move h self moving_piece move = Some (h', self', rep)
    /\ CheckerEngine.was_legal rep = true
    /\ get_x_pos h' moving_piece = CheckerEngine.move_x move
    /\ get_y_pos h' moving_piece = CheckerEngine.move_y move
    /\ is_king h' moving_piece = is_king (fst r) moving_piece
    /\ is_king h' moving_piece
       = is_king h moving_piece || reaches_far_row h self moving_piece move
    /\ get_color h' moving_piece = get_color h moving_piece
    /\ (forall q, q <> moving_piece -> Heap.obj h' q = Heap.obj h q).
Proof.
  cbv zeta. intros Hl.
  assert (Hm := legal_in_range _ _ _ _ Hl).
  assert (Hh := legal_heap _ _ _ _ Hl).
  destruct (promote_mover h self moving_piece move) as (Pk & Pc & _ & _).
  assert (Po := promote_other h self moving_piece move).
  destruct (move_returns h self moving_piece move) as (h' & self' & rep & E).
  exists h', self', rep. split; [exact E|].
  unfold CheckerEngine.move in E. unfold legal in Hl.
  destruct (CheckerEngine.movement_check h self moving_piece move)
    as [h1 [[l j] jp]]; simpl in Hl, Hh. subst l h1.
  set (hp := CheckerEngine.promote h self moving_piece move) in *.
  set (d := Z.lor (Z.shiftl (Z.shiftr (data_of hp moving_piece) 8) 8) move)
    in *.
  assert (E' : h' = Heap.set_data hp moving_piece d
               /\ CheckerEngine.was_legal rep = true).
  { destruct jp as [p|]; [destruct j|];
      try destruct (list_remove p _); inversion E; auto. }
  destruct E' as [-> Hrep]. clear E.
  destruct (relocate_fields (data_of hp moving_piece) move Hm)
    as (Rk & Rc & Rx & Ry).
  fold d in Rk, Rc, Rx, Ry.
  assert (Hobj : Checker.mk (data_of hp moving_piece) = Heap.obj hp moving_piece)
    by (unfold data_of; destruct (Heap.obj hp moving_piece); reflexivity).
  rewrite Hobj in Rk, Rc.
  unfold is_king, get_color, get_x_pos, get_y_pos in *.
  rewrite set_data_same.
  repeat match goal with |- _ /\ _ => split end.
  - exact Hrep.
  - exact Rx.
  - exact Ry.
  - simpl. exact Rk.
  - rewrite Rk. exact Pk.
  - rewrite Rc. exact Pc.
  - intros q Hq. rewrite set_data_other by exact Hq. apply Po. exact Hq.
Qed.

Lemma move_updates_position_witness :
  legal (CheckerEngine.movement_check (fst standard_game) (snd standard_game)
                                      16%nat (square 1 3)) = true
  /\ exists h' self' rep,
      CheckerEngine.move (fst standard_game) (snd standard_game)
                         16%nat (square 1 3) = Some (h', self', rep)
      /\ get_x_pos h' 16%nat = 1 /\ get_y_pos h' 16%nat = 3.
Proof.
  assert (Hl : legal (CheckerEngine.movement_check
                        (fst standard_game) (snd standard_game)
                        16%nat (square 1 3)) = true)
    by (vm_compute; reflexivity).
  split; [exact Hl|].
  destruct (move_updates_position _ _ _ _ Hl)
    as (h' & self' & rep & E & _ & Hx & Hy & _).
  exists h', self', rep. exact (conj E (conj Hx Hy)).
Defined.

(** Both moves of the opening are accepted and carried out. *)
Example opening_is_played :
  snd (CheckerEngine.movement_check (fst standard_game) (snd standard_game)
                                    21%nat (square 6 4))
  = (true, false, None)
  /\ play (Some standard_game) 21%nat (square 6 4) <> None
  /\ snd (CheckerEngine.movement_check (fst opening1) (snd opening1)
                                       17%nat (square 4 4))
     = (true, true, None)
  /\ play (Some opening1) 17%nat (square 4 4) <> None.
Proof. vm_compute. repeat split; discriminate. Qed.

(** C2 at work.  After the two moves of the opening, the black piece of
    (1,1) is asked to go to (3,3).  The move passes the earlier tests and
    is a jump; the black piece of (2,2) sits at (target column - 1,
    target row - 1), so it is refused.  But the red piece of (4,4), which
    comes earlier in the collection, had already been taken for the jumped
    piece, and [move] removes it: 24 pieces before, 23 after. *)
Theorem own_colour_jump_removes_piece :
  let h := fst opening2 in
  let e := snd opening2 in
  rejected_before_jump h e 9%nat (square 3 3) = false
  /\ CheckerEngine.attempts_jump h 9%nat (square 3 3) = true
  /\ existsb (blocks h 9%nat (square 3 3))
             (CheckerBoard.pieces (CheckerEngine.board e)) = true
  /\ match CheckerEngine.move h e 9%nat (square 3 3) with
     | Some (_, e', rep) =>
         CheckerEngine.was_legal rep = false
         /\ CheckerEngine.was_jump rep = true
         /\ CheckerEngine.jumped rep = Some 17%nat
         /\ CheckerBoard.get_number_of_pieces (CheckerEngine.board e) = 24
         /\ CheckerBoard.get_number_of_pieces (CheckerEngine.board e') = 23
         /\ existsb (Nat.eqb 17)
                    (CheckerBoard.pieces (CheckerEngine.board e')) = false
     | None => False
     end.
Proof. vm_compute. repeat split. Qed.

(** ** Board generation *)

Lemma range_bounds (n c : Z) : In c (range n) -> 0 <= c < n.
Proof.
  unfold range. rewrite in_map_iff. intros (k & <- & Hk).
  apply in_seq in Hk. lia.
Qed.

Section Generation.

Variable base : ref.

Lemma add_new_spec king is_red x_pos y_pos st :
  sequential base st ->
  let st' := CheckerBoard.add_new king is_red x_pos y_pos st in
  sequential base st'
  /\ contents st' = contents st ++ [Checker.init king is_red x_pos y_pos]
  /\ CheckerBoard.width (snd st') = CheckerBoard.width (snd st)
  /\ CheckerBoard.height (snd st') = CheckerBoard.height (snd st).
Proof.
  destruct st as [h b]. unfold sequential, contents; simpl.
  intros [Hp Hn]. repeat split.
  - rewrite length_app; simpl. rewrite Nat.add_1_r, seq_S.
    rewrite <- Hp, Hn. reflexivity.
  - rewrite length_app; simpl. rewrite Hn. lia.
  - rewrite map_app; simpl. rewrite Nat.eqb_refl. f_equal.
    apply map_ext_in. intros p Hin. rewrite Hp in Hin.
    apply in_seq in Hin.
    destruct (Nat.eqb_spec p (Heap.next h)); [lia | reflexivity].
Qed.

Lemma generate_cell_spec current_row column st :
  sequential base st ->
  let st' := CheckerBoard.generate_cell current_row column st in
  sequential base st'
  /\ contents st'
     = contents st
       ++ cell_layout (CheckerBoard.height (snd st)) current_row column
  /\ CheckerBoard.width (snd st') = CheckerBoard.width (snd st)
  /\ CheckerBoard.height (snd st') = CheckerBoard.height (snd st).
Proof.
  intros Hs. unfold CheckerBoard.generate_cell, cell_layout. cbv zeta.
  destruct (negb (CheckerBoard.red_check current_row column)).
  - destruct (add_new_spec false false column current_row st Hs)
      as (Hs1 & Hc1 & Hw1 & Hh1).
    rewrite Hh1.
    destruct (negb (CheckerBoard.red_check _ column)).
    + destruct (add_new_spec false true column
                  (CheckerBoard.height (snd st) - current_row - 1) _ Hs1)
        as (Hs2 & Hc2 & Hw2 & Hh2).
      rewrite Hc2, Hc1, Hw2, Hh2, <- app_assoc. auto.
    + rewrite app_nil_r. auto.
  - destruct (negb (CheckerBoard.red_check _ column)).
    + destruct (add_new_spec false true column
                  (CheckerBoard.height (snd st) - current_row - 1) _ Hs)
        as (Hs2 & Hc2 & Hw2 & Hh2).
      auto.
    + rewrite app_nil_r. auto.
Qed.

Lemma generate_columns_spec current_row columns st :
  sequential base st ->
  let st' :=
    fold_left (fun st column =>
                 CheckerBoard.generate_cell current_row column st)
              columns st in
  sequential base st'
  /\ contents st'
     = contents st
       ++ flat_map (cell_layout (CheckerBoard.height (snd st)) current_row)
                   columns
  /\ CheckerBoard.width (snd st') = CheckerBoard.width (snd st)
  /\ CheckerBoard.height (snd st') = CheckerBoard.height (snd st).
Proof.
  revert st. induction columns as [|c columns IH]; intros st Hs; simpl.
  - rewrite app_nil_r. auto.
  - destruct (generate_cell_spec current_row c st Hs)
      as (Hs1 & Hc1 & Hw1 & Hh1).
    destruct (IH _ Hs1) as (Hs2 & Hc2 & Hw2 & Hh2).
    rewrite Hc2, Hc1, Hw2, Hh2, Hw1, Hh1, <- app_assoc. auto.
Qed.

Lemma generate_rows_spec n current_row st :
  sequential base st ->
  let st' := CheckerBoard.generate_rows n current_row st in
  sequential base st'
  /\ contents st'
     = contents st
       ++ rows_layout n (CheckerBoard.width (snd st))
                      (CheckerBoard.height (snd st)) current_row
  /\ CheckerBoard.width (snd st') = CheckerBoard.width (snd st)
  /\ CheckerBoard.height (snd st') = CheckerBoard.height (snd st).
Proof.
  revert current_row st.
  induction n as [|n IH]; intros current_row st Hs; simpl.
  - rewrite app_nil_r. auto.
  - destruct (generate_columns_spec current_row
                (range (CheckerBoard.width (snd st))) st Hs)
      as (Hs1 & Hc1 & Hw1 & Hh1).
    destruct (IH (current_row + 1) _ Hs1) as (Hs2 & Hc2 & Hw2 & Hh2).
    rewrite Hc2, Hc1, Hw2, Hh2, Hw1, Hh1, <- app_assoc. auto.
Qed.

End Generation.

(** What [CheckerBoard(width, height)] holds, whatever the heap it is
    built in: clamped dimensions and the layout, made of fresh objects. *)
Lemma init_spec (h : Heap.t) (width height : Z) :
  let st := CheckerBoard.init h width height in
  let w := clamp_dimension width in
  let hg := clamp_dimension height in
  sequential (Heap.next h) st
  /\ contents st
     = rows_layout
         (Z.to_nat (if hg mod 2 =? 0 then (hg - 1) / 2 else hg / 2)) w hg 0
  /\ CheckerBoard.width (snd st) = w
  /\ CheckerBoard.height (snd st) = hg.
Proof.
  cbv zeta. unfold CheckerBoard.init. cbv zeta.
  set (w := if (if width >? 16 then 16 else width) <? 3 then 3
            else if width >? 16 then 16 else width).
  set (hg := if (if height >? 16 then 16 else height) <? 3 then 3
             else if height >? 16 then 16 else height).
  assert (Hw : w = clamp_dimension width).
  { subst w. unfold clamp_dimension.
    destruct (Z.gtb_spec width 16);
      match goal with |- context [?a <? 3] => destruct (Z.ltb_spec a 3) end;
      lia. }
  assert (Hh : hg = clamp_dimension height).
  { subst hg. unfold clamp_dimension.
    destruct (Z.gtb_spec height 16);
      match goal with |- context [?a <? 3] => destruct (Z.ltb_spec a 3) end;
      lia. }
  rewrite <- Hw, <- Hh.
  assert (Hs : sequential (Heap.next h) (h, CheckerBoard.mk w hg []))
    by (split; simpl; [reflexivity | lia]).
  unfold CheckerBoard.generate_board, CheckerBoard.rows_to_generate.
  destruct (generate_rows_spec (Heap.next h)
              (Z.to_nat ((if hg mod 2 =? 0 then (hg - 1) / 2 else hg / 2) - 0))
              0 _ Hs) as (Hs' & Hc & Hw' & Hh').
  simpl in Hc, Hw', Hh' |- *. rewrite Z.sub_0_r in *.
  auto.
Qed.

Section Layout.

Variables width height : Z.
Hypothesis width_max : width <= 16.
Hypothesis height_max : height <= 16.

Lemma init_on_even_square king is_red column row :
  0 <= column <= 15 -> 0 <= row <= 15 ->
  CheckerBoard.red_check row column = false ->
  on_even_square (Checker.init king is_red column row) = true.
Proof.
  intros Hc Hr Hred. unfold on_even_square.
  destruct (init_fields king is_red column row) as (_ & _ & -> & ->).
  rewrite Z.max_r, Z.min_r by lia. rewrite Z.max_r, Z.min_r by lia.
  unfold CheckerBoard.red_check in Hred.
  destruct ((row + column) mod 2 =? 0); [reflexivity | discriminate].
Qed.

Lemma cell_layout_even current_row column :
  0 <= column < width ->
  0 <= current_row < height ->
  forallb on_even_square (cell_layout height current_row column) = true.
Proof.
  intros Hc Hr. unfold cell_layout. rewrite forallb_app.
  apply andb_true_intro; split.
  - destruct (CheckerBoard.red_check current_row column) eqn:E;
      [reflexivity|]. cbn [negb forallb].
    rewrite init_on_even_square by (lia || exact E). reflexivity.
  - destruct (CheckerBoard.red_check (height - current_row - 1) column)
      eqn:E; [reflexivity|]. cbn [negb forallb].
    rewrite init_on_even_square by (lia || exact E). reflexivity.
Qed.

Lemma row_layout_even current_row :
  0 <= current_row < height ->
  forallb on_even_square (row_layout width height current_row) = true.
Proof.
  intros Hr. unfold row_layout. apply forallb_forall.
  intros c Hin. apply in_flat_map in Hin. destruct Hin as (col & Hcol & Hin).
  apply range_bounds in Hcol.
  assert (H := cell_layout_even current_row col Hcol Hr).
  rewrite forallb_forall in H. apply H. exact Hin.
Qed.

Lemma rows_layout_even n current_row :
  0 <= current_row -> current_row + Z.of_nat n <= height ->
  forallb on_even_square (rows_layout n width height current_row) = true.
Proof.
  revert current_row.
  induction n as [|n IH]; intros current_row H0 Hn; simpl; [reflexivity|].
  rewrite forallb_app, row_layout_even by lia.
  apply IH; lia.
Qed.

End Layout.

(** C5, as the code has it.  Whatever width and height are asked for,
    every piece of a freshly generated board stands on a square whose
    [row + column] is even: [red_check] is false there, and those are the
    squares generation fills. *)
Theorem generated_on_even_squares (h : Heap.t) (width height : Z) :
  Forall (fun c => (Checker.get_y_pos c + Checker.get_x_pos c) mod 2 = 0)
         (contents (CheckerBoard.init h width height)).
Proof.
  destruct (init_spec h width height) as (_ & -> & _).
  set (hg := clamp_dimension height). set (w := clamp_dimension width).
  assert (Hh : 3 <= hg <= 16) by (subst hg; unfold clamp_dimension; lia).
  assert (Hw : 3 <= w <= 16) by (subst w; unfold clamp_dimension; lia).
  apply Forall_forall. intros c Hin.
  assert (H : forallb on_even_square
                (rows_layout
                   (Z.to_nat (if hg mod 2 =? 0 then (hg - 1) / 2 else hg / 2))
                   w hg 0) = true).
  { apply rows_layout_even; try lia.
    destruct (hg mod 2 =? 0); Z.div_mod_to_equations; lia. }
  rewrite forallb_forall in H. specialize (H c Hin).
  unfold on_even_square in H. apply Z.eqb_eq. exact H.
Qed.

(** C5 as stated fails: the first piece of a standard board stands on
    (0,0), and 0 + 0 is not odd. *)
Lemma generated_on_odd_squares_counterexample :
  ~ (forall h width height,
        Forall (fun c => Z.odd (Checker.get_y_pos c + Checker.get_x_pos c)
                         = true)
               (contents (CheckerBoard.init h width height))).
Proof.
  intros H. specialize (H Heap.empty 8 8).
  rewrite Forall_forall in H.
  specialize (H (Checker.init false false 0 0)).
  assert (Hin : In (Checker.init false false 0 0)
                   (contents (CheckerBoard.init Heap.empty 8 8)))
    by (vm_compute; left; reflexivity).
  specialize (H Hin). vm_compute in H. discriminate H.
Qed.

Lemma number_of_pieces_contents (st : Heap.t * CheckerBoard.t) :
  CheckerBoard.get_number_of_pieces (snd st)
  = Z.of_nat (List.length (contents st)).
Proof.
  unfold CheckerBoard.get_number_of_pieces, contents.
  rewrite length_map. reflexivity.
Qed.

(** The standard board is three row pairs of an 8 by 8 layout. *)
Lemma standard_contents (h : Heap.t) :
  contents (CheckerBoard.init h 8 8) = rows_layout 3 8 8 0.
Proof. destruct (init_spec h 8 8) as (_ & Hc & _). exact Hc. Qed.

Lemma standard_layout_length : List.length (rows_layout 3 8 8 0) = 24%nat.
Proof. vm_compute. reflexivity. Qed.

Lemma standard_layout_census :
  count_color "Black" (rows_layout 3 8 8 0) = 12%nat
  /\ count_color "Red" (rows_layout 3 8 8 0) = 12%nat
  /\ forallb on_even_square (rows_layout 3 8 8 0) = true
  /\ forallb off_middle_rows (rows_layout 3 8 8 0) = true.
Proof. vm_compute. auto. Qed.

(** C6.  A board asked for with width 8 and height 8 holds 24 distinct
    pieces, 12 black and 12 red, every one on a square whose
    [row + column] is even, none in row 3 or row 4. *)
Theorem standard_board (h : Heap.t) :
  let st := CheckerBoard.init h 8 8 in
  CheckerBoard.get_number_of_pieces (snd st) = 24
  /\ NoDup (CheckerBoard.pieces (snd st))
  /\ count_color "Black" (contents st) = 12%nat
  /\ count_color "Red" (contents st) = 12%nat
  /\ forallb on_even_square (contents st) = true
  /\ forallb off_middle_rows (contents st) = true.
Proof.
  cbv zeta. destruct (init_spec h 8 8) as ([Hp _] & _).
  split; [|split].
  - rewrite number_of_pieces_contents, standard_contents,
      standard_layout_length.
    reflexivity.
  - rewrite Hp. apply seq_NoDup.
  - rewrite standard_contents. exact standard_layout_census.
Qed.

(** ** Ten-bit codes throughout *)

Lemma empty_ten_bit : all_ten_bit Heap.empty.
Proof. intros p. unfold ten_bit, data_of; simpl. lia. Qed.

Lemma set_data_ten_bit (h : Heap.t) (p : ref) (d : Z) :
  all_ten_bit h -> ten_bit d -> all_ten_bit (Heap.set_data h p d).
Proof.
  intros Hh Hd q. unfold data_of, Heap.set_data; simpl.
  destruct (Nat.eqb q p); [exact Hd | apply Hh].
Qed.

Lemma add_new_ten_bit king is_red x_pos y_pos st :
  all_ten_bit (fst st) ->
  all_ten_bit (fst (CheckerBoard.add_new king is_red x_pos y_pos st)).
Proof.
  intros Hh q. unfold data_of, CheckerBoard.add_new, Heap.new; simpl.
  destruct (Nat.eqb q (Heap.next (fst st))); [apply init_ten_bit | apply Hh].
Qed.

Lemma generate_cell_ten_bit current_row column st :
  all_ten_bit (fst st) ->
  all_ten_bit (fst (CheckerBoard.generate_cell current_row column st)).
Proof.
  intros Hh. unfold CheckerBoard.generate_cell. cbv zeta.
  repeat match goal with
         | |- context [if ?b then _ else _] => destruct b
         end;
    auto using add_new_ten_bit.
Qed.

Lemma generate_rows_ten_bit n current_row st :
  all_ten_bit (fst st) ->
  all_ten_bit (fst (CheckerBoard.generate_rows n current_row st)).
Proof.
  revert current_row st. induction n as [|n IH]; intros current_row st Hh;
    simpl; [exact Hh|].
  apply IH. generalize (range (CheckerBoard.width (snd st))). intros l.
  revert st Hh. induction l as [|c l IHl]; intros st Hh; simpl; [exact Hh|].
  apply IHl. apply generate_cell_ten_bit. exact Hh.
Qed.

Lemma init_board_ten_bit (h : Heap.t) (width height : Z) :
  all_ten_bit h -> all_ten_bit (fst (CheckerBoard.init h width height)).
Proof.
  intros Hh. unfold CheckerBoard.init, CheckerBoard.generate_board.
  apply generate_rows_ten_bit. exact Hh.
Qed.

Lemma promote_ten_bit h self moving_piece move :
  all_ten_bit h ->
  all_ten_bit (CheckerEngine.promote h self moving_piece move).
Proof.
  intros Hh. unfold CheckerEngine.promote.
  repeat match goal with
         | |- context [if ?b then _ else _] => destruct b
         end;
    auto using set_data_ten_bit, crown_ten_bit.
Qed.

Lemma movement_check_ten_bit h self moving_piece move :
  all_ten_bit h ->
  all_ten_bit (fst (CheckerEngine.movement_check h self moving_piece move)).
Proof.
  intros Hh.
  destruct (rejected_before_jump h self moving_piece move) eqn:Hg.
  - rewrite (movement_check_rejected _ _ _ _ Hg). exact Hh.
  - rewrite (movement_check_passed _ _ _ _ Hg).
    destruct (CheckerEngine.attempts_jump h moving_piece move);
      [destruct (CheckerEngine.find_jumped _ _ _ _ _)|];
      simpl; auto using promote_ten_bit.
Qed.

(** Construction, promotion and the position write all keep the codes
    within ten bits, so every piece of a game decodes and encodes back to
    its code. *)
Lemma move_ten_bit h self moving_piece move h' self' rep :
  all_ten_bit h ->
  CheckerEngine.move h self moving_piece move = Some (h', self', rep) ->
  all_ten_bit h'.
Proof.
  intros Hh E.
  assert (H1 := movement_check_ten_bit h self moving_piece move Hh).
  assert (Hr := legal_in_range h self moving_piece move).
  unfold CheckerEngine.move in E. unfold legal in Hr.
  destruct (CheckerEngine.movement_check h self moving_piece move)
    as [h1 [[l j] jp]]; simpl in H1, Hr.
  assert (H2 : all_ten_bit
                 (if l then
                    Heap.set_data h1 moving_piece
                      (Z.lor (Z.shiftl (Z.shiftr (data_of h1 moving_piece) 8) 8)
                             move)
                  else h1)).
  { destruct l; [|exact H1].
    apply set_data_ten_bit; [exact H1|].
    apply relocate_ten_bit; [apply Hr; reflexivity | apply H1]. }
  destruct jp as [p|]; [destruct j|];
    try destruct (list_remove p _); inversion E; subst; exact H2.
Qed.

(** * Further properties *)

(** ** Pieces *)

(** X1.  A piece built by [Checker(king, is_red, x_pos, y_pos)] reads back
    the king flag it was given, and its colour is "Red" exactly when
    [is_red] was true. *)
Theorem init_reads_back (king is_red : bool) (x_pos y_pos : Z) :
  let c := Checker.init king is_red x_pos y_pos in
  Checker.is_king c = king
  /\ (Checker.get_color c =? "Red")%string = is_red
  /\ (Checker.get_color c =? "Black")%string = negb is_red.
Proof.
  cbv zeta.
  destruct (init_fields king is_red x_pos y_pos) as (-> & -> & _).
  destruct is_red; repeat split.
Qed.

(** X2.  Whatever code a piece holds, ten-bit or not, its column and its
    row read as numbers from 0 to 15, and its colour as one of the two
    strings "Red" and "Black". *)
Theorem accessors_range (c : Checker.t) :
  0 <= Checker.get_x_pos c <= 15
  /\ 0 <= Checker.get_y_pos c <= 15
  /\ (Checker.get_color c = "Red"%string
      \/ Checker.get_color c = "Black"%string).
Proof.
  split; [apply x_pos_range | split; [apply y_pos_range|]].
  unfold Checker.get_color. destruct (_ =? 1); auto.
Qed.

(** ** The collection of a board *)

Lemma list_remove_none (x : ref) (l : list ref) :
  list_remove x l = None <-> ~ In x l.
Proof.
  split.
  - intros E Hin. destruct (list_remove_in x l Hin) as [l' E'].
    rewrite E in E'. discriminate E'.
  - induction l as [|y l IH]; simpl; [reflexivity|].
    intros Hn. destruct (Nat.eqb_spec y x) as [->|Hne].
    + exfalso. apply Hn. left. reflexivity.
    + rewrite IH; [reflexivity|]. intros Hin. apply Hn. right. exact Hin.
Qed.

Lemma list_remove_split (x : ref) (l l' : list ref) :
  list_remove x l = Some l' ->
  exists l1 l2, l = l1 ++ x :: l2 /\ l' = l1 ++ l2 /\ ~ In x l1.
Proof.
  revert l'. induction l as [|y l IH]; simpl; intros l'; [discriminate|].
  destruct (Nat.eqb_spec y x) as [->|Hne].
  - intros [= <-]. exists [], l. simpl. auto.
  - destruct (list_remove x l) as [r|]; [|discriminate].
    intros [= <-]. destruct (IH r eq_refl) as (l1 & l2 & -> & -> & Hn).
    exists (y :: l1), l2. simpl. repeat split; try reflexivity.
    intros [H | H]; [congruence | exact (Hn H)].
Qed.

(** X3.  [remove_piece] raises exactly when the piece is not in the
    collection. *)
Theorem remove_piece_raises (self : CheckerBoard.t) (piece : ref) :
  CheckerBoard.remove_piece self piece = None
  <-> ~ In piece (CheckerBoard.pieces self).
Proof.
  unfold CheckerBoard.remove_piece. rewrite <- list_remove_none.
  destruct (list_remove piece (CheckerBoard.pieces self)); split;
    (discriminate || reflexivity).
Qed.

(** X4.  When [remove_piece] succeeds it takes out the first occurrence of
    the piece and nothing else: the pieces before it and after it keep
    their order, the count goes down by one, and the dimensions stay. *)
Theorem remove_piece_first (self self' : CheckerBoard.t) (piece : ref) :
  CheckerBoard.remove_piece self piece = Some self' ->
  (exists l1 l2,
      CheckerBoard.pieces self = l1 ++ piece :: l2
      /\ CheckerBoard.pieces self' = l1 ++ l2
      /\ ~ In piece l1)
  /\ CheckerBoard.get_number_of_pieces self'
     = CheckerBoard.get_number_of_pieces self - 1
  /\ CheckerBoard.width self' = CheckerBoard.width self
  /\ CheckerBoard.height self' = CheckerBoard.height self.
Proof.
  unfold CheckerBoard.remove_piece.
  destruct (list_remove piece (CheckerBoard.pieces self)) as [l|] eqn:E;
    [|discriminate].
  intros [= <-]. cbn [CheckerBoard.pieces CheckerBoard.width
                      CheckerBoard.height].
  split; [exact (list_remove_split _ _ _ E)|].
  split; [|split; reflexivity].
  unfold CheckerBoard.get_number_of_pieces.
  cbn [CheckerBoard.pieces].
  apply list_remove_length in E. lia.
Qed.

Lemma remove_piece_first_witness :
  CheckerBoard.remove_piece (CheckerBoard.mk 8 8 [4; 7; 4; 2]%nat) 4%nat
  = Some (CheckerBoard.mk 8 8 [7; 4; 2]%nat)
  /\ CheckerBoard.get_number_of_pieces (CheckerBoard.mk 8 8 [7; 4; 2]%nat)
     = CheckerBoard.get_number_of_pieces
         (CheckerBoard.mk 8 8 [4; 7; 4; 2]%nat) - 1.
Proof.
  assert (E : CheckerBoard.remove_piece
                (CheckerBoard.mk 8 8 [4; 7; 4; 2]%nat) 4%nat
              = Some (CheckerBoard.mk 8 8 [7; 4; 2]%nat)) by reflexivity.
  split; [exact E|].
  exact (proj1 (proj2 (remove_piece_first _ _ _ E))).
Defined.

(** X5.  Adding a piece that the collection does not hold and removing it
    again gives back the board as it was; in between the count is one
    higher. *)
Theorem add_then_remove (self : CheckerBoard.t) (piece : ref) :
  ~ In piece (CheckerBoard.pieces self) ->
  CheckerBoard.remove_piece (CheckerBoard.add_piece self piece) piece
  = Some self
  /\ CheckerBoard.get_number_of_pieces (CheckerBoard.add_piece self piece)
     = CheckerBoard.get_number_of_pieces self + 1.
Proof.
  intros Hn. destruct self as [w hg l].
  unfold CheckerBoard.remove_piece, CheckerBoard.add_piece,
    CheckerBoard.get_number_of_pieces.
  cbn [CheckerBoard.pieces CheckerBoard.width CheckerBoard.height] in *.
  split.
  - assert (E : list_remove piece (l ++ [piece]) = Some l).
    { induction l as [|y l IH]; simpl.
      - rewrite Nat.eqb_refl. reflexivity.
      - destruct (Nat.eqb_spec y piece) as [->|Hne].
        + exfalso. apply Hn. left. reflexivity.
        + rewrite IH; [reflexivity|]. intros H. apply Hn. right. exact H. }
    rewrite E. reflexivity.
  - rewrite length_app. simpl. lia.
Qed.

Lemma add_then_remove_witness :
  CheckerBoard.remove_piece
    (CheckerBoard.add_piece (CheckerBoard.mk 8 8 [1; 2]%nat) 5%nat) 5%nat
  = Some (CheckerBoard.mk 8 8 [1; 2]%nat).
Proof.
  apply (proj1 (add_then_remove (CheckerBoard.mk 8 8 [1; 2]%nat) 5%nat
                                ltac:(simpl; lia))).
Defined.

(** ** Generation, for every size *)

Lemma extends_refl (h : Heap.t) : extends h h.
Proof. split; [lia | reflexivity]. Qed.

Lemma extends_trans (h1 h2 h3 : Heap.t) :
  extends h1 h2 -> extends h2 h3 -> extends h1 h3.
Proof.
  intros [N1 O1] [N2 O2]. split; [lia|].
  intros p Hp. rewrite O2 by lia. apply O1. exact Hp.
Qed.

Lemma add_new_extends king is_red x_pos y_pos st :
  extends (fst st) (fst (CheckerBoard.add_new king is_red x_pos y_pos st)).
Proof.
  unfold CheckerBoard.add_new, Heap.new; simpl. split; simpl; [lia|].
  intros p Hp. destruct (Nat.eqb_spec p (Heap.next (fst st))); [lia|reflexivity].
Qed.

Lemma generate_cell_extends current_row column st :
  extends (fst st) (fst (CheckerBoard.generate_cell current_row column st)).
Proof.
  unfold CheckerBoard.generate_cell. cbv zeta.
  destruct (negb (CheckerBoard.red_check current_row column)).
  - match goal with |- context [if ?b then _ else _] => destruct b end.
    + eapply extends_trans; apply add_new_extends.
    + apply add_new_extends.
  - match goal with |- context [if ?b then _ else _] => destruct b end.
    + apply add_new_extends.
    + apply extends_refl.
Qed.

Lemma generate_rows_extends n current_row st :
  extends (fst st) (fst (CheckerBoard.generate_rows n current_row st)).
Proof.
  revert current_row st. induction n as [|n IH]; intros current_row st;
    simpl; [apply extends_refl|].
  eapply extends_trans; [|apply IH].
  generalize (range (CheckerBoard.width (snd st))). intros l.
  revert st. induction l as [|c l IHl]; intros st; simpl;
    [apply extends_refl|].
  eapply extends_trans; [apply generate_cell_extends | apply IHl].
Qed.

(** X6.  A board is built with its width and its height saturated into
    3..16, whatever is asked for. *)
Theorem board_dimensions (h : Heap.t) (width height : Z) :
  let board := snd (CheckerBoard.init h width height) in
  CheckerBoard.width board = Z.max 3 (Z.min 16 width)
  /\ CheckerBoard.height board = Z.max 3 (Z.min 16 height).
Proof.
  cbv zeta. destruct (init_spec h width height) as (_ & _ & Hw & Hh).
  split; assumption.
Qed.

(** X7.  Building a board makes one new object for each piece and touches
    nothing else: the collection lists the new references once each, in
    the order they were made, and every object the heap held before is
    unchanged. *)
Theorem board_is_fresh (h : Heap.t) (width height : Z) :
  let st := CheckerBoard.init h width height in
  CheckerBoard.pieces (snd st)
  = seq (Heap.next h) (List.length (CheckerBoard.pieces (snd st)))
  /\ Heap.next (fst st)
     = (Heap.next h + List.length (CheckerBoard.pieces (snd st)))%nat
  /\ NoDup (CheckerBoard.pieces (snd st))
  /\ (forall p, (p < Heap.next h)%nat ->
                Heap.obj (fst st) p = Heap.obj h p).
Proof.
  cbv zeta. destruct (init_spec h width height) as ([Hp Hn] & _).
  split; [exact Hp | split; [exact Hn | split]].
  - rewrite Hp. apply seq_NoDup.
  - unfold CheckerBoard.init, CheckerBoard.generate_board.
    match goal with
    | |- context [CheckerBoard.generate_rows ?n ?r ?st] =>
        exact (proj2 (generate_rows_extends n r st))
    end.
Qed.

Lemma range_NoDup (n : Z) : NoDup (range n).
Proof.
  unfold range. apply NoDup_map_NoDup_ForallPairs; [|apply seq_NoDup].
  intros a b _ _ E. apply Nat2Z.inj. exact E.
Qed.

Lemma in_cell_layout height current_row column c :
  In c (cell_layout height current_row column) ->
  (c = Checker.init false false column current_row
   /\ CheckerBoard.red_check current_row column = false)
  \/ (c = Checker.init false true column (height - current_row - 1)
      /\ CheckerBoard.red_check (height - current_row - 1) column = false).
Proof.
  unfold cell_layout. rewrite in_app_iff.
  destruct (CheckerBoard.red_check current_row column),
    (CheckerBoard.red_check (height - current_row - 1) column); simpl;
    intuition auto.
Qed.

Lemma in_rows_layout n width height current_row c :
  In c (rows_layout n width height current_row) ->
  exists r column,
    current_row <= r < current_row + Z.of_nat n
    /\ 0 <= column < width
    /\ In c (cell_layout height r column).
Proof.
  revert current_row. induction n as [|n IH]; intros current_row;
    simpl rows_layout; [intros []|].
  rewrite in_app_iff. intros [H | H].
  - unfold row_layout in H. apply in_flat_map in H.
    destruct H as (column & Hc & H). apply range_bounds in Hc.
    exists current_row, column. repeat split; try lia. exact H.
  - destruct (IH _ H) as (r & column & Hr & Hc & H').
    exists r, column. repeat split; try lia. exact H'.
Qed.

Section Camps.

Variables width height : Z.
Hypothesis width_range : 3 <= width <= 16.
Hypothesis height_range : 3 <= height <= 16.

Let rows := if height mod 2 =? 0 then (height - 1) / 2 else height / 2.

Lemma rows_bound : 0 <= rows /\ 2 * rows <= height - 1.
Proof.
  subst rows. destruct (Z.eqb_spec (height mod 2) 0);
    Z.div_mod_to_equations; lia.
Qed.

Lemma layout_in_camp c :
  In c (rows_layout (Z.to_nat rows) width height 0) ->
  in_camp (CheckerBoard.mk width height []) c
  /\ exists r column,
      0 <= r < rows /\ 0 <= column < width
      /\ (square_of c = (column, r)
          \/ square_of c = (column, height - r - 1)).
Proof.
  intros Hin. destruct rows_bound as [R0 R1].
  destruct (in_rows_layout _ _ _ _ _ Hin) as (r & column & Hr & Hc & Hcell).
  rewrite Z2Nat.id in Hr by lia.
  unfold in_camp, square_of, CheckerBoard.rows_to_generate.
  cbn [CheckerBoard.width CheckerBoard.height]. fold rows.
  destruct (in_cell_layout _ _ _ _ Hcell) as [[-> _] | [-> _]].
  - destruct (init_fields false false column r) as (-> & -> & -> & ->).
    rewrite !Z.max_r, !Z.min_r by lia.
    split.
    + split; [reflexivity|]. split; [lia|]. left. split; [reflexivity | lia].
    + exists r, column. split; [lia|]. split; [lia|]. left; reflexivity.
  - destruct (init_fields false true column (height - r - 1))
      as (-> & -> & -> & ->).
    rewrite (Z.min_r 15 column), (Z.max_r 0 column) by lia.
    rewrite (Z.min_r 15 (height - r - 1)), (Z.max_r 0 (height - r - 1))
      by lia.
    split.
    + split; [reflexivity|]. split; [lia|]. right. split; [reflexivity | lia].
    + exists r, column. split; [lia|]. split; [lia|]. right; reflexivity.
Qed.

Lemma cell_squares current_row column q :
  0 <= column < width -> 0 <= current_row -> 2 * current_row < height - 1 ->
  In q (map square_of (cell_layout height current_row column)) ->
  fst q = column
  /\ (snd q = current_row \/ snd q = height - current_row - 1).
Proof.
  intros Hc H0 Hr Hin. apply in_map_iff in Hin.
  destruct Hin as (c & <- & Hin). unfold square_of.
  destruct (in_cell_layout _ _ _ _ Hin) as [[-> _] | [-> _]]; simpl.
  - destruct (init_fields false false column current_row)
      as (_ & _ & -> & ->).
    rewrite !Z.max_r, !Z.min_r by lia. auto.
  - destruct (init_fields false true column (height - current_row - 1))
      as (_ & _ & -> & ->).
    rewrite (Z.min_r 15 column), (Z.max_r 0 column) by lia.
    rewrite (Z.min_r 15 (height - current_row - 1)),
      (Z.max_r 0 (height - current_row - 1)) by lia.
    auto.
Qed.

Lemma cell_squares_NoDup current_row column :
  0 <= column < width -> 0 <= current_row -> 2 * current_row < height - 1 ->
  NoDup (map square_of (cell_layout height current_row column)).
Proof.
  intros Hc H0 Hr. unfold cell_layout.
  assert (Hne : square_of (Checker.init false false column current_row)
                <> square_of (Checker.init false true column
                                           (height - current_row - 1))).
  { unfold square_of.
    destruct (init_fields false false column current_row)
      as (_ & _ & -> & ->).
    destruct (init_fields false true column (height - current_row - 1))
      as (_ & _ & -> & ->).
    intros E. apply (f_equal snd) in E. cbn [snd] in E. lia. }
  destruct (negb (CheckerBoard.red_check current_row column)),
    (negb (CheckerBoard.red_check (height - current_row - 1) column));
    cbn [negb app map].
  - constructor; [|constructor; [intros [] | constructor]].
    intros [E | []]. apply Hne. symmetry. exact E.
  - constructor; [intros [] | constructor].
  - constructor; [intros [] | constructor].
  - constructor.
Qed.

Lemma columns_squares current_row (l : list Z) q :
  Forall (fun column => 0 <= column < width) l ->
  0 <= current_row -> 2 * current_row < height - 1 ->
  In q (map square_of (flat_map (cell_layout height current_row) l)) ->
  In (fst q) l
  /\ (snd q = current_row \/ snd q = height - current_row - 1).
Proof.
  intros Hl H0 Hr Hin. apply in_map_iff in Hin.
  destruct Hin as (c & <- & Hin). apply in_flat_map in Hin.
  destruct Hin as (column & Hcol & Hin).
  rewrite Forall_forall in Hl.
  destruct (cell_squares current_row column (square_of c) (Hl _ Hcol) H0 Hr)
    as [-> Hy]; [apply in_map; exact Hin|].
  auto.
Qed.

Lemma columns_squares_NoDup current_row (l : list Z) :
  Forall (fun column => 0 <= column < width) l -> NoDup l ->
  0 <= current_row -> 2 * current_row < height - 1 ->
  NoDup (map square_of (flat_map (cell_layout height current_row) l)).
Proof.
  intros Hl Hnd H0 Hr. induction l as [|a l IH]; simpl; [constructor|].
  inversion Hl as [|? ? Ha Hl']; subst. inversion Hnd as [|? ? Hna Hnd']; subst.
  rewrite map_app. apply NoDup_app.
  - apply cell_squares_NoDup; assumption.
  - apply IH; assumption.
  - intros q Hq Hq'.
    destruct (cell_squares current_row a q Ha H0 Hr Hq) as [Hx _].
    destruct (columns_squares current_row l q Hl' H0 Hr Hq') as [Hin _].
    rewrite Hx in Hin. contradiction.
Qed.

Lemma rows_squares n current_row q :
  0 <= current_row -> 2 * (current_row + Z.of_nat n) <= height - 1 ->
  In q (map square_of (rows_layout n width height current_row)) ->
  exists r, current_row <= r < current_row + Z.of_nat n
            /\ (snd q = r \/ snd q = height - r - 1).
Proof.
  intros H0 Hn Hin. apply in_map_iff in Hin. destruct Hin as (c & <- & Hin).
  destruct (in_rows_layout _ _ _ _ _ Hin) as (r & column & Hr & Hc & Hcell).
  exists r. split; [exact Hr|].
  apply (cell_squares r column (square_of c)); try lia.
  apply in_map. exact Hcell.
Qed.

Lemma rows_squares_NoDup n current_row :
  0 <= current_row -> 2 * (current_row + Z.of_nat n) <= height - 1 ->
  NoDup (map square_of (rows_layout n width height current_row)).
Proof.
  revert current_row. induction n as [|n IH]; intros current_row H0 Hn;
    simpl rows_layout; [constructor|].
  rewrite map_app. apply NoDup_app.
  - unfold row_layout. apply columns_squares_NoDup; try lia.
    + apply Forall_forall. intros c Hc. apply range_bounds. exact Hc.
    + apply range_NoDup.
  - apply IH; lia.
  - intros q Hq Hq'. unfold row_layout in Hq.
    destruct (columns_squares current_row (range width) q) as [_ Hy];
      try lia; try exact Hq.
    { apply Forall_forall. intros c Hc. apply range_bounds. exact Hc. }
    destruct (rows_squares n (current_row + 1) q) as (r & Hr & Hy');
      try lia; try exact Hq'.
Qed.

End Camps.

Lemma rows_to_generate_bound (board : CheckerBoard.t) :
  3 <= CheckerBoard.height board <= 16 ->
  0 <= CheckerBoard.rows_to_generate board
  /\ 2 * CheckerBoard.rows_to_generate board < CheckerBoard.height board.
Proof.
  intros Hh. unfold CheckerBoard.rows_to_generate.
  destruct (rows_bound (CheckerBoard.height board) Hh). lia.
Qed.

Lemma in_camp_dimensions (b b' : CheckerBoard.t) (c : Checker.t) :
  CheckerBoard.width b' = CheckerBoard.width b ->
  CheckerBoard.height b' = CheckerBoard.height b ->
  in_camp b c -> in_camp b' c.
Proof.
  unfold in_camp, CheckerBoard.rows_to_generate. intros -> ->. auto.
Qed.

(** The pieces of a new board, whatever its size. *)
Lemma init_layout (h : Heap.t) (width height : Z) :
  let st := CheckerBoard.init h width height in
  3 <= CheckerBoard.width (snd st) <= 16
  /\ 3 <= CheckerBoard.height (snd st) <= 16
  /\ Forall (in_camp (snd st)) (contents st)
  /\ Forall (fun c => on_even_square c = true) (contents st)
  /\ NoDup (map square_of (contents st)).
Proof.
  cbv zeta. destruct (init_spec h width height) as (_ & Hc & Hw & Hh).
  set (st := CheckerBoard.init h width height) in *.
  set (w := clamp_dimension width) in *.
  set (hg := clamp_dimension height) in *.
  assert (Rw : 3 <= w <= 16) by (subst w; unfold clamp_dimension; lia).
  assert (Rh : 3 <= hg <= 16) by (subst hg; unfold clamp_dimension; lia).
  destruct (rows_bound hg Rh) as [R0 R1].
  rewrite Hc, Hw, Hh.
  split; [exact Rw | split; [exact Rh | split; [|split]]].
  - apply Forall_forall. intros c Hin.
    apply (in_camp_dimensions (CheckerBoard.mk w hg [])).
    + exact Hw.
    + exact Hh.
    + exact (proj1 (layout_in_camp w hg Rw Rh c Hin)).
  - apply Forall_forall. intros c Hin.
    assert (H : forallb on_even_square
                  (rows_layout
                     (Z.to_nat (if hg mod 2 =? 0 then (hg - 1) / 2
                                else hg / 2)) w hg 0) = true).
    { apply rows_layout_even; lia. }
    rewrite forallb_forall in H. exact (H c Hin).
  - apply rows_squares_NoDup; lia.
Qed.

(** X8.  On a new board of any size every piece is a plain piece within
    the columns of the board, Black in one of the first
    [rows_to_generate] rows or Red in one of the last; as twice that
    number is below the height, at least one row in the middle is
    empty. *)
Theorem generated_in_camps (h : Heap.t) (width height : Z) :
  let st := CheckerBoard.init h width height in
  0 <= CheckerBoard.rows_to_generate (snd st)
  /\ 2 * CheckerBoard.rows_to_generate (snd st)
     < CheckerBoard.height (snd st)
  /\ Forall (in_camp (snd st)) (contents st).
Proof.
  cbv zeta. destruct (init_layout h width height) as (_ & Hh & Hc & _).
  destruct (rows_to_generate_bound _ Hh) as [R0 R1].
  split; [exact R0 | split; [exact R1 | exact Hc]].
Qed.

(** X9.  On a new board of any size no two pieces stand on the same
    square. *)
Theorem generated_on_distinct_squares (h : Heap.t) (width height : Z) :
  NoDup (map square_of (contents (CheckerBoard.init h width height))).
Proof. exact (proj2 (proj2 (proj2 (proj2 (init_layout h width height))))). Qed.

Lemma position_square_of (h : Heap.t) (l : list ref) :
  map (position h) l = map square_of (map (Heap.obj h) l).
Proof. rewrite map_map. reflexivity. Qed.

(** A new board is in order. *)
Lemma init_in_order (h : Heap.t) (width height : Z) :
  in_order (fst (CheckerBoard.init h width height))
           (snd (CheckerBoard.init h width height)).
Proof.
  destruct (init_spec h width height) as ([Hp Hn] & _).
  destruct (init_layout h width height) as (_ & _ & Hcamp & Heven & Hnd).
  set (st := CheckerBoard.init h width height) in *.
  unfold in_order. split; [|split].
  - rewrite Hp at 1. apply Forall_forall. intros p Hin.
    apply in_seq in Hin. lia.
  - unfold contents in Hcamp, Heven.
    rewrite Forall_map in Hcamp, Heven.
    rewrite Forall_forall in *. intros p Hin.
    specialize (Hcamp p Hin). specialize (Heven p Hin).
    destruct Hcamp as (_ & Hx & Hy).
    unfold on_grid, get_x_pos, get_y_pos. split; [split|].
    + exact Hx.
    + destruct Hy as [[_ Hy] | [_ Hy]]; [|lia].
      destruct (init_layout h width height) as (_ & Hh & _).
      destruct (rows_to_generate_bound _ Hh). fold st in H, H0. lia.
    + unfold on_even_square in Heven. apply Z.eqb_eq. exact Heven.
  - rewrite position_square_of. exact Hnd.
Qed.

(** ** Validation, further *)

Section ValidationFacts.

Variables (h : Heap.t) (self : CheckerEngine.t) (moving_piece : ref)
          (move : Z).

Let result := CheckerEngine.movement_check h self moving_piece move.
Let pieces := CheckerBoard.pieces (CheckerEngine.board self).

Lemma gates_passed :
  rejected_before_jump h self moving_piece move = false ->
  CheckerEngine.bad_parameter move = false
  /\ CheckerEngine.off_grid_x self move = false
  /\ CheckerEngine.off_grid_y self move = false
  /\ CheckerEngine.to_red_square move = false
  /\ CheckerEngine.not_diagonal h moving_piece move = false
  /\ CheckerEngine.backwards_black h moving_piece move = false
  /\ CheckerEngine.backwards_red h moving_piece move = false
  /\ CheckerEngine.occupied h self move = false.
Proof.
  unfold rejected_before_jump. rewrite !orb_false_iff. tauto.
Qed.

Lemma legal_passed :
  legal result = true ->
  rejected_before_jump h self moving_piece move = false.
Proof.
  subst result.
  destruct (rejected_before_jump h self moving_piece move) eqn:Hg;
    [|reflexivity].
  rewrite (movement_check_rejected _ _ _ _ Hg). discriminate.
Qed.

(** Whatever the scan holds at its end, beyond what it started with, is a
    piece of the list that sits at one of the two offsets and is not of
    the mover's colour. *)
Lemma find_jumped_enemy (l : list ref) (j : option ref) (p : ref) :
  held (CheckerEngine.find_jumped h moving_piece move l j) = Some p ->
  j = Some p
  \/ (In p l /\ beside h move p = true
      /\ CheckerEngine.same_color h p moving_piece = false).
Proof.
  revert j. induction l as [|q l IH]; simpl; [auto|].
  intros j. unfold CheckerEngine.look.
  destruct (CheckerEngine.at_offset_plus h q move) eqn:Ep,
    (CheckerEngine.at_offset_minus h q move) eqn:Em,
    (CheckerEngine.same_color h q moving_piece) eqn:Ec; simpl; auto;
    intros H; apply IH in H;
    (destruct H as [[= ->] | (Hin & Hb & Hc)];
     [|right; split; [right; exact Hin | split; assumption]]);
    auto;
    right; (split; [left; reflexivity|]); unfold beside;
    rewrite Ep, Em; split; auto.
Qed.

(** A scan that is not cut short and passes a piece at one of the offsets
    holds a piece at its end. *)
Lemma find_jumped_finds (l : list ref) (j j' : option ref) :
  CheckerEngine.find_jumped h moving_piece move l j = Finished j' ->
  existsb (beside h move) l = true \/ j <> None ->
  j' <> None.
Proof.
  revert j. induction l as [|q l IH]; simpl.
  - intros j [= <-] [H | H]; [discriminate | exact H].
  - intros j. unfold beside at 1, CheckerEngine.look.
    destruct (CheckerEngine.at_offset_plus h q move),
      (CheckerEngine.at_offset_minus h q move),
      (CheckerEngine.same_color h q moving_piece); simpl;
      try discriminate; intros Hs Hx; apply (IH _ Hs);
      solve [right; discriminate | exact Hx].
Qed.

Lemma jumped_is_enemy (p : ref) :
  jumped_piece result = Some p ->
  is_jump result = true
  /\ In p pieces
  /\ beside h move p = true
  /\ CheckerEngine.same_color h p moving_piece = false.
Proof.
  subst result pieces.
  destruct (rejected_before_jump h self moving_piece move) eqn:Hg.
  - rewrite (movement_check_rejected _ _ _ _ Hg). discriminate.
  - rewrite (movement_check_passed _ _ _ _ Hg).
    destruct (CheckerEngine.attempts_jump h moving_piece move);
      [|discriminate].
    intros Hp.
    assert (Hh : held (CheckerEngine.find_jumped
                         h moving_piece move
                         (CheckerBoard.pieces (CheckerEngine.board self))
                         None) = Some p)
      by (destruct (CheckerEngine.find_jumped _ _ _ _ _); exact Hp).
    destruct (find_jumped_enemy _ _ _ Hh) as [H | H]; [discriminate H|].
    split; [|exact H].
    destruct (CheckerEngine.find_jumped _ _ _ _ _); reflexivity.
Qed.

Lemma movement_check_frame (q : ref) :
  Heap.next (fst result) = Heap.next h
  /\ get_color (fst result) q = get_color h q
  /\ get_x_pos (fst result) q = get_x_pos h q
  /\ get_y_pos (fst result) q = get_y_pos h q
  /\ (is_king h q = true -> is_king (fst result) q = true)
  /\ (q <> moving_piece -> Heap.obj (fst result) q = Heap.obj h q).
Proof.
  assert (Hp : let hp := CheckerEngine.promote h self moving_piece move in
               Heap.next hp = Heap.next h
               /\ get_color hp q = get_color h q
               /\ get_x_pos hp q = get_x_pos h q
               /\ get_y_pos hp q = get_y_pos h q
               /\ (is_king h q = true -> is_king hp q = true)
               /\ (q <> moving_piece -> Heap.obj hp q = Heap.obj h q)).
  { cbv zeta. split.
    - unfold CheckerEngine.promote.
      repeat match goal with
             | |- context [if ?b then _ else _] => destruct b
             end; reflexivity.
    - destruct (Nat.eq_dec q moving_piece) as [-> | Hq].
      + destruct (promote_mover h self moving_piece move)
          as (Hk & Hc & Hx & Hy).
        rewrite Hk, Hc, Hx, Hy.
        repeat split; try (intros ->; reflexivity). intros []. reflexivity.
      + assert (Ho := promote_other h self moving_piece move q Hq).
        unfold get_color, get_x_pos, get_y_pos, is_king. rewrite Ho.
        repeat split; auto. }
  cbv zeta in Hp. subst result.
  destruct (rejected_before_jump h self moving_piece move) eqn:Hg.
  - rewrite (movement_check_rejected _ _ _ _ Hg). simpl. repeat split; auto.
  - rewrite (movement_check_passed _ _ _ _ Hg).
    destruct (CheckerEngine.attempts_jump h moving_piece move);
      [destruct (CheckerEngine.find_jumped _ _ _ _ _)|]; simpl;
      solve [exact Hp | repeat split; auto].
Qed.

End ValidationFacts.

Lemma color_cases (h : Heap.t) (p : ref) :
  get_color h p = "Red"%string \/ get_color h p = "Black"%string.
Proof.
  unfold get_color, Checker.get_color. destruct (_ =? 1); auto.
Qed.

(** X10.  Validation never moves a piece and never changes a colour; it
    makes no object; the only object it may write is the mover, and there
    it can only set the king flag, never clear it. *)
Theorem validation_writes_king_flag_only (h : Heap.t)
        (self : CheckerEngine.t) (moving_piece : ref) (move : Z) (q : ref) :
  let h' := fst (CheckerEngine.movement_check h self moving_piece move) in
  Heap.next h' = Heap.next h
  /\ get_color h' q = get_color h q
  /\ get_x_pos h' q = get_x_pos h q
  /\ get_y_pos h' q = get_y_pos h q
  /\ (is_king h q = true -> is_king h' q = true)
  /\ (q <> moving_piece -> Heap.obj h' q = Heap.obj h q).
Proof. exact (movement_check_frame h self moving_piece move q). Qed.

Lemma validation_writes_king_flag_only_witness :
  is_king (fst king_game) 0%nat = true
  /\ is_king (fst (CheckerEngine.movement_check
                     (fst king_game) (snd king_game) 0%nat (square 2 2)))
             0%nat = true.
Proof.
  assert (Hk : is_king (fst king_game) 0%nat = true) by reflexivity.
  split; [exact Hk|].
  exact (proj1 (proj2 (proj2 (proj2 (proj2
           (validation_writes_king_flag_only
              (fst king_game) (snd king_game) 0%nat (square 2 2) 0%nat)))))
           Hk).
Defined.

Lemma legal_facts (h : Heap.t) (self : CheckerEngine.t)
        (moving_piece : ref) (move : Z) :
  legal (CheckerEngine.movement_check h self moving_piece move) = true ->
  0 <= move <= 255
  /\ CheckerEngine.move_x move < CheckerBoard.width (CheckerEngine.board self)
  /\ CheckerEngine.move_y move < CheckerBoard.height (CheckerEngine.board self)
  /\ (CheckerEngine.move_y move + CheckerEngine.move_x move) mod 2 = 0
  /\ get_x_pos h moving_piece <> CheckerEngine.move_x move
  /\ get_y_pos h moving_piece <> CheckerEngine.move_y move
  /\ (forall p, In p (CheckerBoard.pieces (CheckerEngine.board self)) ->
                position h p
                <> (CheckerEngine.move_x move, CheckerEngine.move_y move))
  /\ (is_king h moving_piece = false ->
      if (get_color h moving_piece =? "Red")%string
      then CheckerEngine.move_y move < get_y_pos h moving_piece
      else get_y_pos h moving_piece < CheckerEngine.move_y move).
Proof.
  intros Hl. assert (Hr := legal_in_range _ _ _ _ Hl).
  apply legal_passed in Hl.
  destruct (gates_passed _ _ _ _ Hl)
    as (_ & Gx & Gy & Gs & Gd & Gb & Gr & Go).
  split; [exact Hr|].
  unfold CheckerEngine.off_grid_x in Gx. unfold CheckerEngine.off_grid_y in Gy.
  unfold CheckerEngine.to_red_square, CheckerBoard.red_check in Gs.
  unfold CheckerEngine.not_diagonal in Gd. apply orb_false_elim in Gd.
  split; [lia | split; [lia | split; [|split; [lia | split; [lia | split]]]]].
  - destruct (Z.eqb_spec ((CheckerEngine.move_y move
                           + CheckerEngine.move_x move) mod 2) 0);
      [assumption | discriminate].
  - intros p Hin E. unfold CheckerEngine.occupied in Go.
    assert (Hex : existsb
                    (fun piece =>
                       (get_x_pos h piece =? CheckerEngine.move_x move)
                       && (get_y_pos h piece =? CheckerEngine.move_y move))
                    (CheckerBoard.pieces (CheckerEngine.board self)) = true).
    { apply existsb_exists. exists p. split; [exact Hin|].
      unfold position in E. injection E as -> ->.
      rewrite !Z.eqb_refl. reflexivity. }
    rewrite Hex in Go. discriminate Go.
  - intros Hk.
    unfold CheckerEngine.backwards_black in Gb.
    unfold CheckerEngine.backwards_red in Gr.
    rewrite Hk in Gb, Gr. simpl Bool.eqb in Gb, Gr.
    rewrite andb_true_r in Gb, Gr.
    destruct (color_cases h moving_piece) as [Hc | Hc]; rewrite Hc in *;
      simpl in Gb, Gr |- *; rewrite ?andb_true_r, ?andb_false_r in *; lia.
Qed.

(** X11.  A move that validation accepts has a target in 0..255 that lies
    on the grid, on a square with even [row + column] where no piece of
    the board stands, in another column and another row than the mover;
    and a piece that is not a king goes to a higher row if Black, to a
    lower row if Red. *)
Theorem legal_target (h : Heap.t) (self : CheckerEngine.t)
        (moving_piece : ref) (move : Z) :
  legal (CheckerEngine.movement_check h self moving_piece move) = true ->
  0 <= move <= 255
  /\ CheckerEngine.move_x move < CheckerBoard.width (CheckerEngine.board self)
  /\ CheckerEngine.move_y move < CheckerBoard.height (CheckerEngine.board self)
  /\ (CheckerEngine.move_y move + CheckerEngine.move_x move) mod 2 = 0
  /\ get_x_pos h moving_piece <> CheckerEngine.move_x move
  /\ get_y_pos h moving_piece <> CheckerEngine.move_y move
  /\ (forall p, In p (CheckerBoard.pieces (CheckerEngine.board self)) ->
                position h p
                <> (CheckerEngine.move_x move, CheckerEngine.move_y move))
  /\ (is_king h moving_piece = false ->
      if (get_color h moving_piece =? "Red")%string
      then CheckerEngine.move_y move < get_y_pos h moving_piece
      else get_y_pos h moving_piece < CheckerEngine.move_y move).
Proof. exact (legal_facts h self moving_piece move). Qed.

Lemma legal_target_witness :
  legal (CheckerEngine.movement_check (fst standard_game) (snd standard_game)
                                      16%nat (square 1 3)) = true
  /\ get_y_pos (fst standard_game) 16%nat
     < CheckerEngine.move_y (square 1 3).
Proof.
  assert (Hl : legal (CheckerEngine.movement_check
                        (fst standard_game) (snd standard_game)
                        16%nat (square 1 3)) = true)
    by (vm_compute; reflexivity).
  split; [exact Hl|].
  exact (proj2 (proj2 (proj2 (proj2 (proj2 (proj2 (proj2
           (legal_target _ _ _ _ Hl))))))) eq_refl).
Defined.

(** X12.  Validation accepts a move exactly when every test before the
    jump logic passes and, if the move is classified as a jump, no piece
    of the mover's colour sits at either of the two offsets. *)
Theorem legal_exactly (h : Heap.t) (self : CheckerEngine.t)
        (moving_piece : ref) (move : Z) :
  legal (CheckerEngine.movement_check h self moving_piece move) = true
  <-> rejected_before_jump h self moving_piece move = false
      /\ (CheckerEngine.attempts_jump h moving_piece move = true ->
          existsb (blocks h moving_piece move)
                  (CheckerBoard.pieces (CheckerEngine.board self)) = false).
Proof.
  destruct (rejected_before_jump h self moving_piece move) eqn:Hg.
  - rewrite (movement_check_rejected _ _ _ _ Hg).
    split; [discriminate | intros [? _]; discriminate].
  - rewrite (movement_check_passed _ _ _ _ Hg).
    destruct (CheckerEngine.attempts_jump h moving_piece move).
    + destruct (CheckerEngine.find_jumped _ _ _ _ _) as [j|j] eqn:Hs.
      * rewrite (find_jumped_returned _ _ _ _ _ _ Hs).
        split; [discriminate | intros [_ H]; discriminate (H eq_refl)].
      * split; [|reflexivity]. intros _. split; [reflexivity|]. intros _.
        destruct (existsb _ _) eqn:Hx; [|reflexivity].
        destruct (find_jumped_blocked _ _ _ _ None Hx) as [j' Hj'].
        rewrite Hj' in Hs. discriminate Hs.
    + split; [|reflexivity]. intros _. split; [reflexivity | discriminate].
Qed.

Lemma legal_exactly_witness :
  legal (CheckerEngine.movement_check (fst king_game) (snd king_game)
                                      0%nat (square 2 2)) = true.
Proof.
  apply (proj2 (legal_exactly _ _ _ _)).
  split; [vm_compute; reflexivity | intros H; vm_compute in H; discriminate H].
Defined.

(** X13.  A piece that validation names as jumped, whether it accepts the
    move or not, belongs to the board, sits at one of the two offsets of
    the target and is not of the mover's colour; and the move is then
    reported as a jump. *)
Theorem jumped_piece_is_enemy (h : Heap.t) (self : CheckerEngine.t)
        (moving_piece : ref) (move : Z) (p : ref) :
  let r := CheckerEngine.movement_check h self moving_piece move in
  jumped_piece r = Some p ->
  is_jump r = true
  /\ In p (CheckerBoard.pieces (CheckerEngine.board self))
  /\ beside h move p = true
  /\ CheckerEngine.same_color h p moving_piece = false.
Proof. exact (jumped_is_enemy h self moving_piece move p). Qed.

Lemma jumped_piece_is_enemy_witness :
  jumped_piece (CheckerEngine.movement_check
                  (fst standard_game) (snd standard_game)
                  16%nat (square 2 4)) = Some 19%nat
  /\ CheckerEngine.same_color (fst standard_game) 19%nat 16%nat = false.
Proof.
  assert (Hj : jumped_piece (CheckerEngine.movement_check
                               (fst standard_game) (snd standard_game)
                               16%nat (square 2 4)) = Some 19%nat)
    by (vm_compute; reflexivity).
  split; [exact Hj|].
  exact (proj2 (proj2 (proj2 (jumped_piece_is_enemy _ _ _ _ _ Hj)))).
Defined.

(** ** Execution, further *)

Section ExecutionFacts.

Variables (h : Heap.t) (self : CheckerEngine.t) (moving_piece : ref)
          (move : Z).

Let result := CheckerEngine.movement_check h self moving_piece move.
Let pieces := CheckerBoard.pieces (CheckerEngine.board self).

(** What [move] returns, read off the result of validation. *)
Lemma move_cases h' self' rep :
  CheckerEngine.move h self moving_piece move = Some (h', self', rep) ->
  rep = CheckerEngine.mk_report (legal result) (is_jump result)
                                (jumped_piece result)
  /\ h' = (if legal result
           then Heap.set_data
                  (fst result) moving_piece
                  (Z.lor (Z.shiftl
                            (Z.shiftr (data_of (fst result) moving_piece) 8)
                            8)
                         move)
           else fst result)
  /\ CheckerEngine.turn self' = CheckerEngine.turn self
  /\ CheckerBoard.width (CheckerEngine.board self')
     = CheckerBoard.width (CheckerEngine.board self)
  /\ CheckerBoard.height (CheckerEngine.board self')
     = CheckerBoard.height (CheckerEngine.board self)
  /\ (jumped_piece result = None -> self' = self)
  /\ (forall p, jumped_piece result = Some p ->
                list_remove p pieces
                = Some (CheckerBoard.pieces (CheckerEngine.board self'))).
Proof.
  assert (Hj := jumped_is_enemy h self moving_piece move).
  subst result pieces. unfold CheckerEngine.move, legal, is_jump, jumped_piece in *.
  destruct (CheckerEngine.movement_check h self moving_piece move)
    as [h1 [[l j] jp]]. cbn [fst snd] in *.
  destruct jp as [p|].
  - destruct (Hj p eq_refl) as (-> & _).
    destruct (list_remove p _) as [l'|] eqn:E; [|discriminate].
    intros [= <- <- <-]. cbn.
    repeat split; try discriminate.
    intros q [= <-]. exact E.
  - intros [= <- <- <-].
    repeat split; try discriminate.
Qed.

(** After a legal move the mover holds the promoted code with the target
    written over its position. *)
Lemma move_legal_mover h' self' rep :
  CheckerEngine.move h self moving_piece move = Some (h', self', rep) ->
  legal result = true ->
  position h' moving_piece
  = (CheckerEngine.move_x move, CheckerEngine.move_y move)
  /\ get_color h' moving_piece = get_color h moving_piece
  /\ is_king h' moving_piece
     = is_king h moving_piece || reaches_far_row h self moving_piece move
  /\ Heap.next h' = Heap.next h
  /\ (forall q, q <> moving_piece -> Heap.obj h' q = Heap.obj h q).
Proof.
  intros E Hl. destruct (move_cases _ _ _ E) as (_ & -> & _).
  assert (Hm := legal_in_range _ _ _ _ Hl).
  assert (Hh := legal_heap _ _ _ _ Hl).
  subst result. rewrite Hl, Hh.
  set (hp := CheckerEngine.promote h self moving_piece move).
  destruct (promote_mover h self moving_piece move) as (Pk & Pc & _ & _).
  fold hp in Pk, Pc.
  destruct (relocate_fields (data_of hp moving_piece) move Hm)
    as (Rk & Rc & Rx & Ry).
  assert (Hobj : Checker.mk (data_of hp moving_piece)
                 = Heap.obj hp moving_piece)
    by (unfold data_of; destruct (Heap.obj hp moving_piece); reflexivity).
  rewrite Hobj in Rk, Rc.
  unfold position, is_king, get_color, get_x_pos, get_y_pos in *.
  rewrite set_data_same, Rx, Ry, Rk, Rc.
  split; [reflexivity | split; [exact Pc | split; [exact Pk | split]]].
  - destruct (movement_check_frame h self moving_piece move moving_piece)
      as (Hn & _).
    rewrite Hh in Hn. exact Hn.
  - intros q Hq. rewrite set_data_other by exact Hq.
    apply promote_other. exact Hq.
Qed.

(** An illegal move leaves the heap as it was. *)
Lemma move_illegal_heap h' self' rep :
  CheckerEngine.move h self moving_piece move = Some (h', self', rep) ->
  legal result = false -> h' = h.
Proof.
  intros E Hl. destruct (move_cases _ _ _ E) as (_ & -> & _).
  subst result. rewrite Hl.
  destruct (rejected_before_jump h self moving_piece move) eqn:Hg.
  - rewrite (movement_check_rejected _ _ _ _ Hg). reflexivity.
  - rewrite (movement_check_passed _ _ _ _ Hg) in Hl |- *.
    destruct (CheckerEngine.attempts_jump h moving_piece move);
      [|discriminate Hl].
    destruct (CheckerEngine.find_jumped _ _ _ _ _);
      [reflexivity | discriminate Hl].
Qed.

Lemma move_board_facts h' self' rep :
  CheckerEngine.move h self moving_piece move = Some (h', self', rep) ->
  CheckerEngine.turn self' = CheckerEngine.turn self
  /\ CheckerBoard.width (CheckerEngine.board self')
     = CheckerBoard.width (CheckerEngine.board self)
  /\ CheckerBoard.height (CheckerEngine.board self')
     = CheckerBoard.height (CheckerEngine.board self)
  /\ (CheckerEngine.jumped rep = None -> self' = self)
  /\ (forall p,
         CheckerEngine.jumped rep = Some p ->
         exists l1 l2,
           pieces = l1 ++ p :: l2
           /\ CheckerBoard.pieces (CheckerEngine.board self') = l1 ++ l2
           /\ ~ In p l1).
Proof.
  intros E.
  destruct (move_cases _ _ _ E) as (-> & _ & Ht & Hw & Hh & Hn & Hs).
  cbn [CheckerEngine.jumped].
  split; [exact Ht | split; [exact Hw | split; [exact Hh | split]]].
  - exact Hn.
  - intros p Hp. apply list_remove_split. apply Hs. exact Hp.
Qed.

End ExecutionFacts.

(** X14.  A move that passes the tests before the jump logic, is
    classified as a jump, has some piece at one of the two offsets and
    none of the mover's colour there, is a capture: [move] succeeds,
    reports a legal jump over a piece of the other colour that sat at one
    of the offsets, and takes that piece, and only it, out of the
    collection. *)
Theorem capture_executes (h : Heap.t) (self : CheckerEngine.t)
        (moving_piece : ref) (move : Z) :
  rejected_before_jump h self moving_piece move = false ->
  CheckerEngine.attempts_jump h moving_piece move = true ->
  existsb (blocks h moving_piece move)
          (CheckerBoard.pieces (CheckerEngine.board self)) = false ->
  existsb (beside h move)
          (CheckerBoard.pieces (CheckerEngine.board self)) = true ->
  exists p h' self' rep,
    CheckerEngine.move h self moving_piece move = Some (h', self', rep)
    /\ rep = CheckerEngine.mk_report true true (Some p)
    /\ In p (CheckerBoard.pieces (CheckerEngine.board self))
    /\ beside h move p = true
    /\ CheckerEngine.same_color h p moving_piece = false
    /\ list_remove p (CheckerBoard.pieces (CheckerEngine.board self))
       = Some (CheckerBoard.pieces (CheckerEngine.board self'))
    /\ CheckerBoard.get_number_of_pieces (CheckerEngine.board self')
       = CheckerBoard.get_number_of_pieces (CheckerEngine.board self) - 1.
Proof.
  intros Hg Hj Hb Hs.
  assert (Hr : exists p,
             snd (CheckerEngine.movement_check h self moving_piece move)
             = (true, true, Some p)).
  { rewrite (movement_check_passed _ _ _ _ Hg), Hj.
    destruct (CheckerEngine.find_jumped _ _ _ _ _) as [j|j] eqn:Hf.
    - rewrite (find_jumped_returned _ _ _ _ _ _ Hf) in Hb. discriminate Hb.
    - destruct j as [p|]; [exists p; reflexivity|].
      exfalso. apply (find_jumped_finds _ _ _ _ _ _ Hf); auto. }
  destruct Hr as [p Hr].
  destruct (move_returns h self moving_piece move) as (h' & self' & rep & E).
  destruct (move_cases _ _ _ _ _ _ _ E) as (Hrep & _ & _ & _ & _ & _ & Hrm).
  assert (Hp : jumped_piece (CheckerEngine.movement_check h self moving_piece move)
               = Some p)
    by (unfold jumped_piece; rewrite Hr; reflexivity).
  destruct (jumped_is_enemy h self moving_piece move p Hp)
    as (_ & Hin & Hbe & Hc).
  exists p, h', self', rep.
  split; [exact E|]. split.
  { rewrite Hrep. unfold legal, is_jump, jumped_piece. rewrite Hr.
    reflexivity. }
  split; [exact Hin | split; [exact Hbe | split; [exact Hc | split]]].
  - apply Hrm. exact Hp.
  - unfold CheckerBoard.get_number_of_pieces.
    assert (Hlen := list_remove_length _ _ _ (Hrm p Hp)).
    lia.
Qed.

Lemma capture_executes_witness :
  exists p h' self' rep,
    CheckerEngine.move (fst standard_game) (snd standard_game)
                       16%nat (square 2 4) = Some (h', self', rep)
    /\ rep = CheckerEngine.mk_report true true (Some p)
    /\ CheckerBoard.get_number_of_pieces (CheckerEngine.board self')
       = CheckerBoard.get_number_of_pieces
           (CheckerEngine.board (snd standard_game)) - 1.
Proof.
  destruct (capture_executes (fst standard_game) (snd standard_game)
                             16%nat (square 2 4))
    as (p & h' & self' & rep & E & Hrep & _ & _ & _ & _ & Hn);
    try (vm_compute; reflexivity).
  exists p, h', self', rep. exact (conj E (conj Hrep Hn)).
Defined.

(** X15.  Whatever the move, legal or not, [move] makes no object, writes
    no object but the mover, keeps the mover's colour, never turns a king
    back into a plain piece, and when it reports the move illegal it has
    written nothing at all. *)
Theorem move_frame (h : Heap.t) (self : CheckerEngine.t)
        (moving_piece : ref) (move : Z)
        (h' : Heap.t) (self' : CheckerEngine.t)
        (rep : CheckerEngine.report) :
  CheckerEngine.move h self moving_piece move = Some (h', self', rep) ->
  Heap.next h' = Heap.next h
  /\ (forall q, q <> moving_piece -> Heap.obj h' q = Heap.obj h q)
  /\ get_color h' moving_piece = get_color h moving_piece
  /\ (is_king h moving_piece = true -> is_king h' moving_piece = true)
  /\ (CheckerEngine.was_legal rep = false -> h' = h).
Proof.
  intros E. destruct (move_cases _ _ _ _ _ _ _ E) as (Hrep & _).
  destruct (legal (CheckerEngine.movement_check h self moving_piece move))
    eqn:Hl.
  - destruct (move_legal_mover _ _ _ _ _ _ _ E Hl) as (_ & Hc & Hk & Hn & Ho).
    split; [exact Hn | split; [exact Ho | split; [exact Hc | split]]].
    + intros K. rewrite Hk, K. reflexivity.
    + rewrite Hrep. cbn. discriminate.
  - rewrite (move_illegal_heap _ _ _ _ _ _ _ E Hl). repeat split; auto.
Qed.

(** X16.  [move] never changes the width, the height or the turn counter
    of the engine.  When it reports no jumped piece the engine is exactly
    as before; when it reports one, the first occurrence of that piece
    has left the collection and the other pieces keep their order. *)
Theorem move_board_frame (h : Heap.t) (self : CheckerEngine.t)
        (moving_piece : ref) (move : Z)
        (h' : Heap.t) (self' : CheckerEngine.t)
        (rep : CheckerEngine.report) :
  CheckerEngine.move h self moving_piece move = Some (h', self', rep) ->
  CheckerEngine.turn self' = CheckerEngine.turn self
  /\ CheckerBoard.width (CheckerEngine.board self')
     = CheckerBoard.width (CheckerEngine.board self)
  /\ CheckerBoard.height (CheckerEngine.board self')
     = CheckerBoard.height (CheckerEngine.board self)
  /\ (CheckerEngine.jumped rep = None -> self' = self)
  /\ (forall p,
         CheckerEngine.jumped rep = Some p ->
         exists l1 l2,
           CheckerBoard.pieces (CheckerEngine.board self) = l1 ++ p :: l2
           /\ CheckerBoard.pieces (CheckerEngine.board self') = l1 ++ l2
           /\ ~ In p l1).
Proof. exact (move_board_facts h self moving_piece move h' self' rep). Qed.

Lemma move_frame_witness :
  match CheckerEngine.move (fst standard_game) (snd standard_game)
                           16%nat (square 1 3) with
  | Some (h', _, _) =>
      Heap.next h' = Heap.next (fst standard_game)
      /\ get_color h' 16%nat = get_color (fst standard_game) 16%nat
  | None => False
  end.
Proof.
  destruct (CheckerEngine.move (fst standard_game) (snd standard_game)
                               16%nat (square 1 3))
    as [[[h' self'] rep]|] eqn:E.
  - destruct (move_frame _ _ _ _ _ _ _ E) as (Hn & _ & Hc & _).
    exact (conj Hn Hc).
  - vm_compute in E. discriminate E.
Defined.

Lemma move_board_frame_witness :
  match CheckerEngine.move (fst standard_game) (snd standard_game)
                           16%nat (square 1 3) with
  | Some (_, self', _) =>
      CheckerEngine.turn self' = CheckerEngine.turn (snd standard_game)
  | None => False
  end.
Proof.
  destruct (CheckerEngine.move (fst standard_game) (snd standard_game)
                               16%nat (square 1 3))
    as [[[h' self'] rep]|] eqn:E.
  - exact (proj1 (move_board_frame _ _ _ _ _ _ _ E)).
  - vm_compute in E. discriminate E.
Defined.

(** ** Boards in order *)

Lemma NoDup_map_update {B : Type} (f f' : ref -> B) (m : ref) (l : list ref) :
  (forall a, a <> m -> f' a = f a) ->
  ~ In (f' m) (map f l) ->
  NoDup (map f l) -> NoDup (map f' l).
Proof.
  intros Hf. induction l as [|a l IH]; simpl; [constructor|].
  intros Hm Hnd. inversion Hnd as [|? ? Hna Hnd']; subst.
  assert (Hm' : ~ In (f' m) (map f l)) by tauto.
  assert (Hma : f a <> f' m) by tauto.
  constructor; [|apply IH; assumption].
  intros Hin. apply in_map_iff in Hin. destruct Hin as (b & Eb & Hb).
  destruct (Nat.eq_dec a m) as [-> | Ha], (Nat.eq_dec b m) as [-> | Hbm].
  - apply Hna. apply in_map. exact Hb.
  - apply Hm'. rewrite <- Eb, (Hf b Hbm). apply in_map. exact Hb.
  - apply Hma. rewrite <- (Hf a Ha). symmetry. exact Eb.
  - apply Hna. rewrite <- (Hf a Ha), <- Eb, (Hf b Hbm). apply in_map. exact Hb.
Qed.

Lemma in_order_remove (h : Heap.t) (b b' : CheckerBoard.t)
      (l1 l2 : list ref) (p : ref) :
  CheckerBoard.width b' = CheckerBoard.width b ->
  CheckerBoard.height b' = CheckerBoard.height b ->
  CheckerBoard.pieces b = l1 ++ p :: l2 ->
  CheckerBoard.pieces b' = l1 ++ l2 ->
  in_order h b -> in_order h b'.
Proof.
  unfold in_order, on_grid. intros -> -> -> -> (A & B & C).
  apply Forall_app in A. apply Forall_app in B. rewrite map_app in C |- *.
  destruct A as [A1 A2]. destruct B as [B1 B2].
  inversion A2; subst. inversion B2; subst.
  split; [apply Forall_app; split; assumption|].
  split; [apply Forall_app; split; assumption|].
  simpl in C. exact (NoDup_remove_1 _ _ _ C).
Qed.

Lemma in_order_new (h : Heap.t) (b : CheckerBoard.t) (c : Checker.t) :
  in_order h b -> in_order (fst (Heap.new h c)) b.
Proof.
  unfold in_order. intros (A & B & C).
  assert (Hsame : forall p, In p (CheckerBoard.pieces b) ->
                            Heap.obj (fst (Heap.new h c)) p = Heap.obj h p).
  { intros p Hin. rewrite Forall_forall in A. specialize (A p Hin).
    unfold Heap.new; cbn [fst Heap.obj].
    destruct (Nat.eqb_spec p (Heap.next h)) as [Heq | Hne];
      [exfalso; lia | reflexivity]. }
  split; [|split].
  - eapply Forall_impl; [|exact A]. intros a Ha.
    unfold Heap.new; cbn [fst Heap.next] in Ha |- *. lia.
  - rewrite Forall_forall in B |- *. intros p Hin.
    specialize (B p Hin). unfold on_grid, get_x_pos, get_y_pos in *.
    rewrite (Hsame p Hin). exact B.
  - erewrite map_ext_in; [exact C|].
    intros p Hin. unfold position, get_x_pos, get_y_pos.
    rewrite (Hsame p Hin). reflexivity.
Qed.

Lemma move_in_order (h : Heap.t) (self : CheckerEngine.t)
      (moving_piece : ref) (move : Z)
      (h' : Heap.t) (self' : CheckerEngine.t) (rep : CheckerEngine.report) :
  CheckerEngine.move h self moving_piece move = Some (h', self', rep) ->
  in_order h (CheckerEngine.board self) ->
  in_order h' (CheckerEngine.board self').
Proof.
  intros E Hord.
  assert (Hstep : in_order h' (CheckerEngine.board self)).
  { destruct (legal (CheckerEngine.movement_check h self moving_piece move))
      eqn:Hl.
    - destruct (move_legal_mover _ _ _ _ _ _ _ E Hl)
        as (Hpos & _ & _ & Hn & Ho).
      destruct (legal_facts _ _ _ _ Hl)
        as (_ & Tx & Ty & Te & _ & _ & Tfree & _).
      destruct Hord as (A & B & C).
      assert (Hp : forall a, a <> moving_piece ->
                             position h' a = position h a).
      { intros a Ha. unfold position, get_x_pos, get_y_pos.
        rewrite (Ho a Ha). reflexivity. }
      unfold in_order. rewrite Hn. split; [exact A | split].
      + rewrite Forall_forall in B |- *. intros p Hin.
        destruct (Nat.eq_dec p moving_piece) as [-> | Hne].
        * unfold position in Hpos. injection Hpos as Hx Hy.
          unfold on_grid. rewrite Hx, Hy. auto.
        * specialize (B p Hin).
          unfold on_grid, get_x_pos, get_y_pos in *.
          rewrite (Ho p Hne). exact B.
      + apply (NoDup_map_update (position h) (position h') moving_piece);
          [exact Hp | | exact C].
        rewrite Hpos. intros Hin. apply in_map_iff in Hin.
        destruct Hin as (p & Ep & Hin). exact (Tfree p Hin Ep).
    - rewrite (move_illegal_heap _ _ _ _ _ _ _ E Hl). exact Hord. }
  destruct (move_board_facts _ _ _ _ _ _ _ E) as (_ & Hw & Hh & Hnone & Hsome).
  destruct (CheckerEngine.jumped rep) as [p|].
  - destruct (Hsome p eq_refl) as (l1 & l2 & E1 & E2 & _).
    exact (in_order_remove _ _ _ _ _ _ Hw Hh E1 E2 Hstep).
  - rewrite (Hnone eq_refl). exact Hstep.
Qed.

Lemma engine_init (h : Heap.t) (width height : Z) :
  CheckerEngine.init h width height
  = (fst (CheckerBoard.init h width height),
     CheckerEngine.mk (snd (CheckerBoard.init h width height)) 0).
Proof.
  unfold CheckerEngine.init, CheckerEngine.create_game.
  destruct (CheckerBoard.init h width height). reflexivity.
Qed.

(** What every game keeps. *)
Lemma played_facts (g : game) :
  played g ->
  in_order (fst g) (CheckerEngine.board (snd g))
  /\ all_ten_bit (fst g)
  /\ CheckerEngine.turn (snd g) = 0
  /\ 3 <= CheckerBoard.width (CheckerEngine.board (snd g)) <= 16
  /\ 3 <= CheckerBoard.height (CheckerEngine.board (snd g)) <= 16.
Proof.
  induction 1 as [width height | g king is_red x_pos y_pos Hg IH
                  | g moving_piece move h' e' rep Hg IH E].
  - rewrite engine_init. cbn [fst snd CheckerEngine.board CheckerEngine.turn].
    destruct (init_layout Heap.empty width height) as (Hw & Hh & _).
    split; [apply init_in_order|].
    split; [apply init_board_ten_bit, empty_ten_bit|].
    split; [reflexivity | split; assumption].
  - destruct IH as (Ho & Ht & Hturn & Hw & Hh). cbn [fst snd].
    split; [apply in_order_new; exact Ho|].
    split; [|split; [exact Hturn | split; assumption]].
    intros q. unfold data_of, Heap.new. cbn.
    destruct (Nat.eqb q (Heap.next (fst g))); [apply init_ten_bit | apply Ht].
  - destruct IH as (Ho & Ht & Hturn & Hw & Hh). cbn [fst snd].
    destruct (move_board_facts _ _ _ _ _ _ _ E) as (Et & Ew & Eh & _).
    split; [exact (move_in_order _ _ _ _ _ _ _ E Ho)|].
    split; [exact (move_ten_bit _ _ _ _ _ _ _ Ht E)|].
    rewrite Et, Ew, Eh. split; [exact Hturn | split; assumption].
Qed.

(** X17.  [move] keeps a board in order: if before the call every piece
    of the board stands on the grid, on a square with even
    [row + column], and no two share a square, the same holds after it,
    whichever piece is moved and whether or not the move is legal. *)
Theorem move_keeps_order (h : Heap.t) (self : CheckerEngine.t)
        (moving_piece : ref) (move : Z)
        (h' : Heap.t) (self' : CheckerEngine.t)
        (rep : CheckerEngine.report) :
  CheckerEngine.move h self moving_piece move = Some (h', self', rep) ->
  in_order h (CheckerEngine.board self) ->
  in_order h' (CheckerEngine.board self').
Proof. exact (move_in_order h self moving_piece move h' self' rep). Qed.

(** X18.  In every game reached from a new engine by building pieces and
    calling [move], the board is in order, every piece holds a ten-bit
    code, the dimensions are within 3..16, and the turn counter is still
    0: nothing ever advances it. *)
Theorem played_invariant (g : game) :
  played g ->
  in_order (fst g) (CheckerEngine.board (snd g))
  /\ all_ten_bit (fst g)
  /\ CheckerEngine.turn (snd g) = 0
  /\ 3 <= CheckerBoard.width (CheckerEngine.board (snd g)) <= 16
  /\ 3 <= CheckerBoard.height (CheckerEngine.board (snd g)) <= 16.
Proof. exact (played_facts g). Qed.

(** ** Rendering *)

Lemma string_app_assoc (a b c : string) :
  ((a ++ b) ++ c = a ++ (b ++ c))%string.
Proof. induction a as [|ch a IH]; simpl; [reflexivity | rewrite IH; reflexivity]. Qed.

Lemma string_app_nil_r (a : string) : (a ++ "")%string = a.
Proof. induction a as [|ch a IH]; simpl; [reflexivity | rewrite IH; reflexivity]. Qed.

Lemma range_length (n : Z) : List.length (range n) = Z.to_nat n.
Proof. unfold range. rewrite length_map, length_seq. reflexivity. Qed.

Lemma fold_append {A : Type} (v : A) (l : list Z) (acc : list A) :
  fold_left (fun acc _ => acc ++ [v]) l acc
  = acc ++ repeat v (List.length l).
Proof.
  revert acc. induction l as [|c l IH]; intros acc; simpl.
  - rewrite app_nil_r. reflexivity.
  - rewrite IH, <- app_assoc. reflexivity.
Qed.

Lemma blank_array_repeat (width height : Z) :
  blank_array width height
  = repeat (repeat EmptyString (Z.to_nat width)) (Z.to_nat height).
Proof.
  unfold blank_array, blank_row.
  rewrite !fold_append, !range_length. reflexivity.
Qed.

Lemma blank_array_shaped (width height : Z) :
  shaped (Z.to_nat width) (Z.to_nat height) (blank_array width height).
Proof.
  rewrite blank_array_repeat. split; [apply repeat_length|].
  apply Forall_forall. intros row Hin. apply repeat_spec in Hin.
  rewrite Hin. apply repeat_length.
Qed.

Lemma blank_array_cell (width height : Z) (x y : nat) :
  (x < Z.to_nat width)%nat -> (y < Z.to_nat height)%nat ->
  cell_at (blank_array width height) x y = Some EmptyString.
Proof.
  intros Hx Hy. rewrite blank_array_repeat. unfold cell_at.
  rewrite nth_error_repeat by exact Hy. apply nth_error_repeat. exact Hx.
Qed.

Lemma index_nonneg {A : Type} (l : list A) (i : Z) :
  0 <= i ->
  index l i = if i <? Z.of_nat (List.length l) then Some (Z.to_nat i)
              else None.
Proof.
  intros Hi. unfold index. cbv zeta.
  destruct (Z.leb_spec 0 i); [|lia].
  destruct (Z.ltb_spec i (Z.of_nat (List.length l))); simpl; [reflexivity|].
  destruct (Z.ltb_spec i 0); [lia|]. rewrite andb_false_r. reflexivity.
Qed.

Lemma replace_nth_length {A : Type} (k : nat) (v : A) (l : list A) :
  List.length (replace_nth k v l) = List.length l.
Proof.
  revert k. induction l as [|a l IH]; intros [|k]; simpl; auto.
Qed.

Lemma nth_error_replace_same {A : Type} (k : nat) (v : A) (l : list A) :
  (k < List.length l)%nat -> nth_error (replace_nth k v l) k = Some v.
Proof.
  revert k. induction l as [|a l IH]; intros [|k]; simpl; intros Hk;
    try lia; [reflexivity | apply IH; lia].
Qed.

Lemma nth_error_replace_other {A : Type} (k k' : nat) (v : A) (l : list A) :
  k <> k' -> nth_error (replace_nth k v l) k' = nth_error l k'.
Proof.
  revert k k'. induction l as [|a l IH]; intros [|k] [|k']; simpl; intros Hk;
    try reflexivity; try lia. apply IH. lia.
Qed.

Lemma replace_nth_shaped (columns rows k : nat) (row : list string)
      (arr : list (list string)) :
  shaped columns rows arr -> List.length row = columns ->
  shaped columns rows (replace_nth k row arr).
Proof.
  intros [Hl Hr] Hrow. split; [rewrite replace_nth_length; exact Hl|].
  clear Hl. revert k. induction arr as [|a arr IH]; intros [|k]; simpl;
    try constructor; inversion Hr; subst; auto.
Qed.

Section Drawing.

Variables (h : Heap.t) (columns rows : nat).

(** Drawing one piece into an array of the right shape: it fails exactly
    when the piece is off the array, and otherwise adds the marker to the
    one cell the piece stands on. *)
Lemma draw_piece_spec (arr : list (list string)) (piece : ref) :
  shaped columns rows arr ->
  let x := Z.to_nat (get_x_pos h piece) in
  let y := Z.to_nat (get_y_pos h piece) in
  if (x <? columns)%nat && (y <? rows)%nat
  then exists arr' old,
      draw_piece h arr piece = Some arr'
      /\ shaped columns rows arr'
      /\ cell_at arr x y = Some old
      /\ cell_at arr' x y = Some (old ++ " " ++ marker h piece)%string
      /\ (forall x' y', (x', y') <> (x, y) ->
                        cell_at arr' x' y' = cell_at arr x' y')
  else draw_piece h arr piece = None.
Proof.
  intros Hs. cbv zeta. destruct Hs as [Hl Hr].
  assert (Hx := x_pos_range (Heap.obj h piece)).
  assert (Hy := y_pos_range (Heap.obj h piece)).
  fold (get_x_pos h piece) in Hx. fold (get_y_pos h piece) in Hy.
  unfold draw_piece, get_item, set_item.
  rewrite (index_nonneg arr) by lia. rewrite Hl.
  destruct (Nat.ltb_spec (Z.to_nat (get_y_pos h piece)) rows) as [Hyr | Hyr].
  2: { rewrite andb_false_r.
       destruct (Z.ltb_spec (get_y_pos h piece) (Z.of_nat rows)); [lia|].
       reflexivity. }
  destruct (Z.ltb_spec (get_y_pos h piece) (Z.of_nat rows)); [|lia].
  destruct (nth_error arr (Z.to_nat (get_y_pos h piece))) as [row|] eqn:Erow.
  2: { apply nth_error_None in Erow. lia. }
  assert (Hrow : List.length row = columns).
  { rewrite Forall_forall in Hr. apply Hr.
    apply nth_error_In with (n := Z.to_nat (get_y_pos h piece)). exact Erow. }
  rewrite (index_nonneg row) by lia. rewrite Hrow.
  destruct (Nat.ltb_spec (Z.to_nat (get_x_pos h piece)) columns) as [Hxc | Hxc].
  2: { destruct (Z.ltb_spec (get_x_pos h piece) (Z.of_nat columns)); [lia|].
       reflexivity. }
  destruct (Z.ltb_spec (get_x_pos h piece) (Z.of_nat columns)); [|lia].
  destruct (nth_error row (Z.to_nat (get_x_pos h piece))) as [cell|] eqn:Ecell.
  2: { apply nth_error_None in Ecell. lia. }
  cbn [andb].
  set (x := Z.to_nat (get_x_pos h piece)) in *.
  set (y := Z.to_nat (get_y_pos h piece)) in *.
  set (cell' := (cell ++ " " ++ marker h piece)%string).
  exists (replace_nth y (replace_nth x cell' row) arr), cell.
  split; [reflexivity|].
  split; [apply replace_nth_shaped;
          [split; assumption | rewrite replace_nth_length; exact Hrow]|].
  unfold cell_at. rewrite Erow.
  split; [exact Ecell|].
  rewrite nth_error_replace_same by lia.
  split; [apply nth_error_replace_same; lia|].
  intros x' y' Hne.
  destruct (Nat.eq_dec y y') as [<- | Hy'].
  - rewrite nth_error_replace_same by lia. rewrite Erow.
    apply nth_error_replace_other. intros ->. apply Hne. reflexivity.
  - rewrite nth_error_replace_other by exact Hy'. reflexivity.
Qed.

End Drawing.

Section DrawingAll.

Variables (h : Heap.t) (columns rows : nat).

Let inside (p : ref) : bool :=
  (Z.to_nat (get_x_pos h p) <? columns)%nat
  && (Z.to_nat (get_y_pos h p) <? rows)%nat.

Lemma standing_on_cons x y p l :
  standing_on h x y (p :: l)
  = if (get_x_pos h p =? x) && (get_y_pos h p =? y)
    then p :: standing_on h x y l else standing_on h x y l.
Proof. reflexivity. Qed.

(** Drawing a list of pieces that all fit: every cell gains the markers of
    the pieces standing on it, in the order of the list. *)
Lemma draw_pieces_cells (l : list ref) (arr : list (list string)) :
  shaped columns rows arr ->
  forallb inside l = true ->
  exists arr',
    draw_pieces h arr l = Some arr'
    /\ shaped columns rows arr'
    /\ (forall x y old,
           cell_at arr x y = Some old ->
           cell_at arr' x y
           = Some (old ++ drawn h (standing_on h (Z.of_nat x) (Z.of_nat y) l))
               %string).
Proof.
  revert arr. induction l as [|p l IH]; intros arr Hs Hall.
  - exists arr. split; [reflexivity | split; [exact Hs|]].
    intros x y old Hc. simpl. rewrite Hc, string_app_nil_r. reflexivity.
  - simpl in Hall. apply andb_true_iff in Hall. destruct Hall as [Hp Hall].
    assert (Hspec := draw_piece_spec h columns rows arr p Hs).
    cbv zeta in Hspec. fold (inside p) in Hspec. rewrite Hp in Hspec.
    destruct Hspec as (arr1 & old1 & E1 & Hs1 & Hc0 & Hc1 & Hother).
    destruct (IH arr1 Hs1 Hall) as (arr' & E' & Hs' & Hcells).
    exists arr'. split; [simpl; rewrite E1; exact E'|].
    split; [exact Hs'|].
    intros x y old Hc. rewrite standing_on_cons.
    assert (Hx := x_pos_range (Heap.obj h p)).
    assert (Hy := y_pos_range (Heap.obj h p)).
    fold (get_x_pos h p) in Hx. fold (get_y_pos h p) in Hy.
    destruct (Z.eqb_spec (get_x_pos h p) (Z.of_nat x)) as [Ex | Ex];
      [destruct (Z.eqb_spec (get_y_pos h p) (Z.of_nat y)) as [Ey | Ey]|];
      cbn [andb].
    + rewrite Ex, Ey, !Nat2Z.id in Hc0, Hc1.
      rewrite Hc0 in Hc. injection Hc as <-.
      rewrite (Hcells x y _ Hc1). f_equal.
      rewrite string_app_assoc. reflexivity.
    + rewrite (Hcells x y old); [reflexivity|].
      rewrite Hother; [exact Hc|]. intros [= _ E]. lia.
    + rewrite (Hcells x y old); [reflexivity|].
      rewrite Hother; [exact Hc|]. intros [= E _]. lia.
Qed.

(** One piece that does not fit makes the drawing fail. *)
Lemma draw_pieces_fails (l : list ref) (arr : list (list string)) :
  shaped columns rows arr ->
  forallb inside l = false ->
  draw_pieces h arr l = None.
Proof.
  revert arr. induction l as [|p l IH]; intros arr Hs Hall;
    [discriminate Hall|].
  simpl in Hall. simpl draw_pieces.
  assert (Hspec := draw_piece_spec h columns rows arr p Hs).
  cbv zeta in Hspec. fold (inside p) in Hspec.
  destruct (inside p).
  - destruct Hspec as (arr1 & old1 & E1 & Hs1 & _).
    rewrite E1. apply IH; assumption.
  - rewrite Hspec. reflexivity.
Qed.

End DrawingAll.

Lemma on_grid_inside (h : Heap.t) (board : CheckerBoard.t) (l : list ref) :
  forallb (fun p =>
             (Z.to_nat (get_x_pos h p)
              <? Z.to_nat (CheckerBoard.width board))%nat
             && (Z.to_nat (get_y_pos h p)
                 <? Z.to_nat (CheckerBoard.height board))%nat) l = true
  <-> Forall (on_grid h board) l.
Proof.
  rewrite forallb_forall, Forall_forall.
  split; intros H p Hin; specialize (H p Hin);
    assert (Hx := x_pos_range (Heap.obj h p));
    assert (Hy := y_pos_range (Heap.obj h p));
    fold (get_x_pos h p) in Hx; fold (get_y_pos h p) in Hy;
    unfold on_grid in *.
  - apply andb_true_iff in H. destruct H as [H1 H2].
    apply Nat.ltb_lt in H1, H2. lia.
  - apply andb_true_iff. split; apply Nat.ltb_lt; lia.
Qed.

Section Rendering.

Variables (h : Heap.t) (board : CheckerBoard.t).

Let pieces := CheckerBoard.pieces board.
Let width := CheckerBoard.width board.
Let height := CheckerBoard.height board.

Lemma render_array_succeeds :
  Forall (on_grid h board) pieces ->
  exists arr,
    render_array h board = Some arr
    /\ shaped (Z.to_nat width) (Z.to_nat height) arr
    /\ (forall x y,
           0 <= x < width -> 0 <= y < height ->
           cell_at arr (Z.to_nat x) (Z.to_nat y)
           = Some (drawn h (standing_on h x y pieces))).
Proof.
  intros Hall. apply on_grid_inside in Hall.
  destruct (draw_pieces_cells h _ _ pieces (blank_array width height)
              (blank_array_shaped width height) Hall)
    as (arr & E & Hs & Hcells).
  exists arr. split; [exact E | split; [exact Hs|]].
  intros x y Hx Hy.
  rewrite (Hcells _ _ EmptyString) by (apply blank_array_cell; lia).
  rewrite !Z2Nat.id by lia. reflexivity.
Qed.

Lemma render_array_fails :
  ~ Forall (on_grid h board) pieces -> render_array h board = None.
Proof.
  intros Hn. unfold render_array.
  apply (draw_pieces_fails h (Z.to_nat width) (Z.to_nat height));
    [apply blank_array_shaped|].
  destruct (forallb _ _) eqn:E; [|reflexivity].
  exfalso. apply Hn. apply on_grid_inside. exact E.
Qed.

End Rendering.

Lemma render_array_some (h : Heap.t) (board : CheckerBoard.t)
      (arr : list (list string)) :
  render_array h board = Some arr ->
  Forall (on_grid h board) (CheckerBoard.pieces board).
Proof.
  intros E. apply on_grid_inside.
  destruct (forallb _ _) eqn:Hall; [reflexivity|].
  unfold render_array in E.
  rewrite (draw_pieces_fails h _ _ _ _ (blank_array_shaped _ _) Hall) in E.
  discriminate E.
Qed.

Lemma marker_cases (h : Heap.t) (p : ref) :
  marker h p = "B"%string \/ marker h p = "R"%string
  \/ marker h p = "KB"%string \/ marker h p = "KR"%string.
Proof.
  unfold marker. cbv zeta.
  destruct (color_cases h p) as [-> | ->], (is_king h p); simpl; auto.
Qed.

Lemma standing_on_nobody (h : Heap.t) (x y : Z) (l : list ref) :
  ~ In (x, y) (map (position h) l) -> standing_on h x y l = [].
Proof.
  induction l as [|p l IH]; simpl; [reflexivity|].
  intros Hn.
  destruct (Z.eqb_spec (get_x_pos h p) x) as [Ex | Ex];
    [destruct (Z.eqb_spec (get_y_pos h p) y) as [Ey | Ey]|]; cbn [andb];
    try (apply IH; tauto).
  exfalso. apply Hn. left. unfold position. rewrite Ex, Ey. reflexivity.
Qed.

Lemma standing_on_one (h : Heap.t) (x y : Z) (l : list ref) :
  NoDup (map (position h) l) ->
  standing_on h x y l = []
  \/ exists p, In p l /\ standing_on h x y l = [p].
Proof.
  induction l as [|p l IH]; simpl; [auto|].
  intros Hnd. inversion Hnd as [|? ? Hn Hnd']; subst.
  destruct (Z.eqb_spec (get_x_pos h p) x) as [Ex | Ex];
    [destruct (Z.eqb_spec (get_y_pos h p) y) as [Ey | Ey]|]; cbn [andb].
  - right. exists p. split; [left; reflexivity|].
    rewrite standing_on_nobody; [reflexivity|].
    unfold position in Hn at 1. rewrite Ex, Ey in Hn. exact Hn.
  - destruct (IH Hnd') as [E | (q & Hq & E)]; [left; exact E|].
    right. exists q. split; [right; exact Hq | exact E].
  - destruct (IH Hnd') as [E | (q & Hq & E)]; [left; exact E|].
    right. exists q. split; [right; exact Hq | exact E].
Qed.

Lemma drawn_plain (h : Heap.t) (x y : Z) (l : list ref) :
  NoDup (map (position h) l) ->
  plain_cell (drawn h (standing_on h x y l)).
Proof.
  intros Hnd. unfold plain_cell.
  destruct (standing_on_one h x y l Hnd) as [-> | (p & _ & ->)];
    [left; reflexivity|].
  unfold drawn; cbn [fold_right].
  destruct (marker_cases h p) as [-> | [-> | [-> | ->]]]; simpl; auto.
Qed.

(** X19.  [render_board] raises exactly when some piece of the board
    stands off its grid, in a column at or beyond the width or a row at
    or beyond the height. *)
Theorem render_raises (tabulate : list (list string) -> string)
        (h : Heap.t) (board : CheckerBoard.t) :
  render_board tabulate h board = None
  <-> ~ Forall (on_grid h board) (CheckerBoard.pieces board).
Proof.
  unfold render_board. split.
  - intros E Hall.
    destruct (render_array_succeeds h board Hall) as (arr & Ea & _).
    rewrite Ea in E. discriminate E.
  - intros Hn. rewrite (render_array_fails h board Hn). reflexivity.
Qed.

Lemma render_raises_witness :
  render_board no_tabulate (fst stray_game) (snd stray_game)
  = None.
Proof.
  apply (proj2 (render_raises _ _ _)).
  intros H. apply Forall_inv in H. destruct H as [Hx _].
  vm_compute in Hx. discriminate Hx.
Defined.

(** X20.  When it does not raise, [render_board] hands [tabulate] an
    array with one row for each row of the board and one cell for each
    column, and the cell of column [x], row [y] holds, for each piece
    standing there in the order of the collection, a space and the
    piece's marker. *)
Theorem render_cells (tabulate : list (list string) -> string)
        (h : Heap.t) (board : CheckerBoard.t) (s : string) :
  render_board tabulate h board = Some s ->
  exists arr,
    s = tabulate arr
    /\ shaped (Z.to_nat (CheckerBoard.width board))
              (Z.to_nat (CheckerBoard.height board)) arr
    /\ (forall x y,
           0 <= x < CheckerBoard.width board ->
           0 <= y < CheckerBoard.height board ->
           cell_at arr (Z.to_nat x) (Z.to_nat y)
           = Some (drawn h (standing_on h x y (CheckerBoard.pieces board)))).
Proof.
  unfold render_board.
  destruct (render_array h board) as [arr|] eqn:E; [|discriminate].
  intros [= <-].
  destruct (render_array_succeeds h board (render_array_some _ _ _ E))
    as (arr' & E' & Hs & Hc).
  rewrite E in E'. injection E' as <-.
  exists arr. split; [reflexivity | split; [exact Hs | exact Hc]].
Qed.

Lemma render_cells_witness :
  exists arr,
    shaped 8 8 arr
    /\ cell_at arr 0 0 = Some " B"%string.
Proof.
  destruct (render_board no_tabulate
                         (fst standard_game)
                         (CheckerEngine.board (snd standard_game)))
    as [s|] eqn:E.
  - destruct (render_cells _ _ _ _ E) as (arr & _ & Hs & Hc).
    exists arr. split; [exact Hs|].
    exact (Hc 0 0 ltac:(vm_compute; split; [discriminate | reflexivity])
              ltac:(vm_compute; split; [discriminate | reflexivity])).
  - vm_compute in E. discriminate E.
Defined.

(** X21.  In every game reached from a new engine by building pieces and
    calling [move], rendering the board does not raise, and every cell of
    the array is empty or holds exactly one marker: " B", " R", " KB" or
    " KR". *)
Theorem render_played (tabulate : list (list string) -> string) (g : game) :
  played g ->
  exists arr,
    render_board tabulate (fst g) (CheckerEngine.board (snd g))
    = Some (tabulate arr)
    /\ forall x y cell,
        cell_at arr x y = Some cell -> plain_cell cell.
Proof.
  intros Hg. destruct (played_facts g Hg) as ((_ & Hgrid & Hnd) & _).
  assert (Hall : Forall (on_grid (fst g) (CheckerEngine.board (snd g)))
                        (CheckerBoard.pieces (CheckerEngine.board (snd g)))).
  { eapply Forall_impl; [|exact Hgrid]. intros p [H _]. exact H. }
  destruct (render_array_succeeds _ _ Hall) as (arr & E & [Hl Hr] & Hc).
  exists arr. unfold render_board. rewrite E. split; [reflexivity|].
  intros x y cell Hcell.
  assert (Hy : (y < List.length arr)%nat).
  { apply nth_error_Some. unfold cell_at in Hcell.
    destruct (nth_error arr y); [discriminate | discriminate Hcell]. }
  assert (Hx : (x < Z.to_nat (CheckerBoard.width
                               (CheckerEngine.board (snd g))))%nat).
  { unfold cell_at in Hcell.
    destruct (nth_error arr y) as [row|] eqn:Erow; [|discriminate Hcell].
    rewrite Forall_forall in Hr.
    rewrite <- (Hr row (nth_error_In _ _ Erow)).
    apply nth_error_Some. rewrite Hcell. discriminate. }
  rewrite Hl in Hy.
  specialize (Hc (Z.of_nat x) (Z.of_nat y) ltac:(lia) ltac:(lia)).
  rewrite !Nat2Z.id in Hc. rewrite Hc in Hcell. injection Hcell as <-.
  apply drawn_plain. exact Hnd.
Qed.

(** ** Witnesses of the invariants *)

Lemma engine_in_order (h : Heap.t) (width height : Z) :
  in_order (fst (CheckerEngine.init h width height))
           (CheckerEngine.board (snd (CheckerEngine.init h width height))).
Proof.
  rewrite engine_init. cbn [fst snd CheckerEngine.board].
  apply init_in_order.
Qed.

Lemma standard_game_eq : standard_game = CheckerEngine.init Heap.empty 8 8.
Proof. reflexivity. Qed.

Lemma standard_in_order :
  in_order (fst standard_game) (CheckerEngine.board (snd standard_game)).
Proof. rewrite standard_game_eq. apply engine_in_order. Qed.

Lemma standard_played : played standard_game.
Proof. rewrite standard_game_eq. apply played_init. Qed.

Lemma move_keeps_order_witness :
  match CheckerEngine.move (fst standard_game) (snd standard_game)
                           16%nat (square 1 3) with
  | Some (h', self', _) => in_order h' (CheckerEngine.board self')
  | None => False
  end.
Proof.
  destruct (CheckerEngine.move (fst standard_game) (snd standard_game)
                               16%nat (square 1 3))
    as [[[h' self'] rep]|] eqn:E.
  - exact (move_keeps_order _ _ _ _ _ _ _ E standard_in_order).
  - vm_compute in E. discriminate E.
Defined.

Lemma played_invariant_witness :
  played standard_game
  /\ CheckerEngine.turn (snd standard_game) = 0.
Proof.
  assert (Hp := standard_played).
  split; [exact Hp|].
  exact (proj1 (proj2 (proj2 (played_invariant _ Hp)))).
Defined.

Lemma remove_piece_raises_witness :
  CheckerBoard.remove_piece (CheckerBoard.mk 8 8 [1; 2]%nat) 5%nat = None.
Proof.
  apply (proj2 (remove_piece_raises _ _)). simpl. lia.
Defined.

Lemma board_is_fresh_witness :
  Heap.obj (fst (CheckerBoard.init (fst king_game) 8 8)) 0%nat
  = Heap.obj (fst king_game) 0%nat.
Proof.
  apply (proj2 (proj2 (proj2 (board_is_fresh (fst king_game) 8 8)))).
  vm_compute. lia.
Defined.

Lemma render_played_witness :
  exists arr,
    render_board no_tabulate (fst standard_game)
                 (CheckerEngine.board (snd standard_game))
    = Some (no_tabulate arr)
    /\ forall x y cell, cell_at arr x y = Some cell -> plain_cell cell.
Proof. exact (render_played no_tabulate standard_game standard_played). Defined.

(** ** How far a move goes *)

Lemma jump_flag (h : Heap.t) (self : CheckerEngine.t)
      (moving_piece : ref) (move : Z) :
  legal (CheckerEngine.movement_check h self moving_piece move) = true ->
  is_jump (CheckerEngine.movement_check h self moving_piece move)
  = CheckerEngine.attempts_jump h moving_piece move.
Proof.
  intros Hl. assert (Hg := legal_passed _ _ _ _ Hl).
  rewrite (movement_check_passed _ _ _ _ Hg) in Hl |- *.
  destruct (CheckerEngine.attempts_jump h moving_piece move);
    [|reflexivity].
  destruct (CheckerEngine.find_jumped _ _ _ _ _); [discriminate Hl|].
  reflexivity.
Qed.

(** X22.  A legal move that is not reported as a jump takes the piece to
    a neighbouring column, and a legal move reported as a jump takes it
    at least two columns away. *)
Theorem column_distance (h : Heap.t) (self : CheckerEngine.t)
        (moving_piece : ref) (move : Z) :
  let r := CheckerEngine.movement_check h self moving_piece move in
  legal r = true ->
  (is_jump r = false ->
   Z.abs (get_x_pos h moving_piece - CheckerEngine.move_x move) = 1)
  /\ (is_jump r = true ->
      2 <= Z.abs (get_x_pos h moving_piece - CheckerEngine.move_x move)).
Proof.
  cbv zeta. intros Hl. rewrite (jump_flag h self moving_piece move Hl).
  destruct (legal_facts h self moving_piece move Hl)
    as (_ & _ & _ & _ & Hx & _).
  unfold CheckerEngine.attempts_jump.
  split.
  - intros H. apply orb_false_elim in H. lia.
  - intros H. apply orb_true_iff in H. lia.
Qed.

(** The rows are not compared with the columns: the lone king of (3,3)
    may step to (4,6), three rows up and one column across. *)
Example king_steps_off_the_diagonal :
  snd (CheckerEngine.movement_check (fst king_game) (snd king_game)
                                    0%nat (square 4 6))
  = (true, false, None).
Proof. vm_compute. reflexivity. Qed.

Lemma column_distance_witness :
  legal (CheckerEngine.movement_check (fst king_game) (snd king_game)
                                      0%nat (square 4 6)) = true
  /\ Z.abs (get_x_pos (fst king_game) 0%nat
            - CheckerEngine.move_x (square 4 6)) = 1.
Proof.
  assert (Hl : legal (CheckerEngine.movement_check
                        (fst king_game) (snd king_game)
                        0%nat (square 4 6)) = true)
    by (vm_compute; reflexivity).
  split; [exact Hl|].
  apply (proj1 (column_distance _ _ _ _ Hl)). vm_compute. reflexivity.
Defined.
